(** * merton: the Binance historical data downloader

    A shallow embedding of [src/merton/binance_downloader.py] and the
    properties of [BinanceDataDownloader.get_url] and
    [BinanceDataDownloader.download_data].

    The code is a sequential loop over calendar days.  The calendar of
    [datetime.date] is modelled concretely (it is arithmetic), and so is the
    part of [pandas] that shapes the result (concatenation, naming the
    columns, the index, the layout of the CSV text).  What the code gets
    from outside is given by a record [Env]: the remote source, the archive
    and CSV readers, the conversion and printing of values, the file system,
    and how the C library writes a year.  Every general theorem holds for
    every [Env]. *)

From Stdlib Require Import ZArith List String Ascii Bool Lia DecimalString.
Import ListNotations.
Local Open Scope string_scope.
Local Open Scope Z_scope.

(* ================================================================== *)
(** * [datetime.date] *)
(* ================================================================== *)

Module Calendar.

(** A [date] object: the three fields of Python's [datetime.date].  The
    constructor of [date] refuses anything outside [valid], so the dates a
    caller can pass are exactly the valid records. *)
Record date : Type := mkdate { year : Z; month : Z; day : Z }.

Definition MINYEAR : Z := 1.
Definition MAXYEAR : Z := 9999.

(** [_is_leap]: [year % 4 == 0 and (year % 100 != 0 or year % 400 == 0)]. *)
Definition _is_leap (y : Z) : bool :=
  (y mod 4 =? 0) && (negb (y mod 100 =? 0) || (y mod 400 =? 0)).

(** [_days_before_year]. *)
Definition _days_before_year (y0 : Z) : Z :=
  let y := y0 - 1 in y * 365 + y / 4 - y / 100 + y / 400.

(** [_DAYS_IN_MONTH], indexed from 1. *)
Definition _DAYS_IN_MONTH (m : Z) : Z :=
  match m with
  | 1 => 31 | 2 => 28 | 3 => 31 | 4 => 30 | 5 => 31 | 6 => 30
  | 7 => 31 | 8 => 31 | 9 => 30 | 10 => 31 | 11 => 30 | 12 => 31
  | _ => -1
  end.

(** [_DAYS_BEFORE_MONTH], the running sums of [_DAYS_IN_MONTH]. *)
Definition _DAYS_BEFORE_MONTH (m : Z) : Z :=
  match m with
  | 1 => 0 | 2 => 31 | 3 => 59 | 4 => 90 | 5 => 120 | 6 => 151
  | 7 => 181 | 8 => 212 | 9 => 243 | 10 => 273 | 11 => 304 | 12 => 334
  | _ => -1
  end.

(** [_days_in_month]. *)
Definition _days_in_month (y m : Z) : Z :=
  if (m =? 2) && _is_leap y then 29 else _DAYS_IN_MONTH m.

(** [_days_before_month]. *)
Definition _days_before_month (y m : Z) : Z :=
  _DAYS_BEFORE_MONTH m + (if (2 <? m) && _is_leap y then 1 else 0).

(** [_ymd2ord]; [date.toordinal] is [_ymd2ord] of the three fields. *)
Definition _ymd2ord (y m d : Z) : Z :=
  _days_before_year y + _days_before_month y m + d.

Definition toordinal (d : date) : Z := _ymd2ord (year d) (month d) (day d).

(** The check of [date.__new__] ([_check_date_fields]). *)
Definition valid_date (d : date) : bool :=
  (MINYEAR <=? year d) && (year d <=? MAXYEAR)
  && (1 <=? month d) && (month d <=? 12)
  && (1 <=? day d) && (day d <=? _days_in_month (year d) (month d)).

Definition valid (d : date) : Prop := valid_date d = true.

(** [date.max]. *)
Definition date_max : date := mkdate 9999 12 31.

(** [a <= b] on dates: the comparison of the tuples (year, month, day). *)
Definition date_le (a b : date) : bool :=
  if year a <? year b then true
  else if year b <? year a then false
  else if month a <? month b then true
  else if month b <? month a then false
  else day a <=? day b.

(** [(b - a).days]: the difference of the ordinals. *)
Definition days_between (a b : date) : Z := toordinal b - toordinal a.

(** The day after [d], before the range check: the one-day case of the
    normalisation that [date + timedelta] performs on (year, month, day + 1). *)
Definition tomorrow (d : date) : date :=
  if day d + 1 <=? _days_in_month (year d) (month d)
  then mkdate (year d) (month d) (day d + 1)
  else if month d + 1 <=? 12
       then mkdate (year d) (month d + 1) 1
       else mkdate (year d + 1) 1 1.

(** [d + timedelta(days=1)]: [None] stands for the [OverflowError] that
    Python raises when the result would lie beyond [date.max]. *)
Definition add_one_day (d : date) : option date :=
  let d' := tomorrow d in
  if (MINYEAR <=? year d') && (year d' <=? MAXYEAR) then Some d' else None.

(** Decimal rendering in a fixed number of digits: ["%0wd" % n] for
    [0 <= n < 10^w], which is the only range the date fields reach. *)
Definition digit (n : Z) : ascii := ascii_of_nat (48 + Z.to_nat (n mod 10)).

Fixpoint zero_padded (w : nat) (n : Z) : string :=
  match w with
  | O => EmptyString
  | S w' => zero_padded w' (n / 10) ++ String (digit n) EmptyString
  end%string.

(** A decimal string without its leading zeros (its last digit stays). *)
Fixpoint strip_zeros (s : string) : string :=
  match s with
  | String c rest =>
      match rest with
      | EmptyString => s
      | String _ _ => if Ascii.eqb c "0" then strip_zeros rest else s
      end
  | EmptyString => s
  end.

(** The plain decimal number, for [0 <= n < 10^4]. *)
Definition unpadded (n : Z) : string := strip_zeros (zero_padded 4 n).

(** [date.strftime(fmt)] for the directives [%Y], [%m], [%d] and [%%];
    every other character of the format is copied.  CPython hands the format
    to [strftime] of the C library, and the libraries differ on [%Y]: some
    write the year in four digits with leading zeros, glibc writes the plain
    decimal number ([date(5, 1, 1).strftime("%Y")] is ["5"] there).
    [pads_year] says which; month and day have two digits everywhere. *)
Fixpoint strftime (pads_year : bool) (d : date) (fmt : string) : string :=
  match fmt with
  | EmptyString => EmptyString
  | String "%"%char (String c rest) =>
      (if Ascii.eqb c "Y"
       then (if pads_year then zero_padded 4 (year d) else unpadded (year d))
       else if Ascii.eqb c "m" then zero_padded 2 (month d)
       else if Ascii.eqb c "d" then zero_padded 2 (day d)
       else if Ascii.eqb c "%" then "%"
       else String "%"%char (String c EmptyString))
      ++ strftime pads_year d rest
  | String c rest => String c (strftime pads_year d rest)
  end%string.

(** [date.isoformat], which is also [str(d)] and what an f-string
    interpolates: ["%04d-%02d-%02d" % (year, month, day)]. *)
Definition isoformat (d : date) : string :=
  (zero_padded 4 (year d) ++ "-" ++ zero_padded 2 (month d) ++ "-"
   ++ zero_padded 2 (day d))%string.

End Calendar.

(* ================================================================== *)
(** * Exceptions, the outside world and the monad of the code *)
(* ================================================================== *)

Module Effects.

(** A Python exception, as far as the code looks at it: its class and what
    [str(e)] gives.  Only instances of [Exception] are modelled (the classes
    an [except Exception] clause catches). *)
Record exn : Type := mkexn { exc_class : string; exc_str : string }.

(** The result of a library call that may raise. *)
Inductive except (A : Type) : Type :=
| Ok (a : A)
| Err (e : exn).
Arguments Ok {A} a.
Arguments Err {A} e.

(** What the program does to the outside, as a record of its calls: the lines
    printed, the URLs requested with GET (oldest first), the paths [mkdir]
    was called on (oldest first) and the writes made, each with the text of
    its path and the text written (latest write first).  It is a log of what
    the code asked for, not the state of a file system: which directories a
    [mkdir] call makes, and which file a path text names, is left to the
    machine. *)
Record world : Type := mkworld {
  stdout : list string;
  requests : list string;
  dirs : list string;
  files : list (string * string)
}.

(** The outcome of running a piece of code: it returns, it raises, or the
    model stopped unrolling a loop ([OutOfFuel], which
    [download_data_terminates] below rules out for the loop of the code). *)
Inductive outcome (A : Type) : Type :=
| Return (a : A)
| Raise (e : exn)
| OutOfFuel.
Arguments Return {A} a.
Arguments Raise {A} e.
Arguments OutOfFuel {A}.

Definition M (A : Type) : Type := world -> outcome A * world.

Definition ret {A} (a : A) : M A := fun w => (Return a, w).

Definition bind {A B} (m : M A) (k : A -> M B) : M B :=
  fun w =>
    match m w with
    | (Return a, w') => k a w'
    | (Raise e, w') => (Raise e, w')
    | (OutOfFuel, w') => (OutOfFuel, w')
    end.

Definition raise {A} (e : exn) : M A := fun w => (Raise e, w).

Definition out_of_fuel {A} : M A := fun w => (OutOfFuel, w).

(** A library result enters the code: a value, or the exception raised. *)
Definition lift {A} (r : except A) : M A :=
  match r with
  | Ok a => ret a
  | Err e => raise e
  end.

(** [try: body / except Exception as e: handler(e)].  What the body did to
    the world before it raised stays done. *)
Definition try_except {A} (body : M A) (handler : exn -> M A) : M A :=
  fun w =>
    match body w with
    | (Raise e, w') => handler e w'
    | r => r
    end.

(** [print(line)]. *)
Definition print (line : string) : M unit :=
  fun w => (Return tt,
            mkworld (stdout w ++ [line]) (requests w) (dirs w) (files w)).

(** A world where nothing has happened yet. *)
Definition empty_world : world := mkworld [] [] [] [].

(** The world [w] after the events recorded in [d] happened on top of it. *)
Definition extend (w d : world) : world :=
  mkworld (stdout w ++ stdout d) (requests w ++ requests d)
          (dirs w ++ dirs d) (files d ++ files w).

(** A computation that never looks at the world it starts in: from any world
    it gives the result it gives from the empty one, and adds the same
    events. *)
Definition oblivious {A} (m : M A) : Prop :=
  forall w, m w = (fst (m empty_world), extend w (snd (m empty_world))).

(** The text last written under this very path text.  Two texts that the file
    system resolves to one file are two keys here. *)
Fixpoint read_file (fs : list (string * string)) (path : string)
  : option string :=
  match fs with
  | [] => None
  | (p, c) :: fs' => if String.eqb p path then Some c else read_file fs' path
  end.

End Effects.

Declare Scope py_scope.
Delimit Scope py_scope with py.
Notation "x <- m ;; k" := (Effects.bind m (fun x => k))
  (at level 61, m at next level, right associativity) : py_scope.
Notation "m ;;; k" := (Effects.bind m (fun _ => k))
  (at level 61, right associativity) : py_scope.

(* ================================================================== *)
(** * The part of [pandas] the code uses *)
(* ================================================================== *)

Module Pandas.
Import Effects.

(** A column label: a position (what [read_csv(header=None)] gives) or a
    name. *)
Inductive label : Type :=
| Pos (n : nat)
| Name (s : string).

Definition label_eqb (a b : label) : bool :=
  match a, b with
  | Pos n, Pos m => Nat.eqb n m
  | Name s, Name t => String.eqb s t
  | _, _ => false
  end.

Section Frames.

(** The values of a table are kept abstract: [cell] with its missing value
    [NaN].  Changes of dtype that leave the value alone are not modelled. *)
Variable cell : Type.
Variable NaN : cell.

(** The row index: the default [RangeIndex(n)], or the values of a column
    with its name. *)
Inductive Index : Type :=
| RangeIndex (n : nat)
| NamedIndex (name : string) (values : list cell).

(** A [DataFrame]: the column labels, the row index, and the rows, each row
    holding one cell per column. *)
Record DataFrame : Type := mkframe {
  columns : list label;
  index : Index;
  data : list (list cell)
}.

(** A row brought to a width: missing fields are [NaN]. *)
Definition fit (width : nat) (row : list cell) : list cell :=
  (firstn width row ++ repeat NaN (width - List.length row))%list.

(** The frame [read_csv(..., header=None)] builds from the parsed fields:
    the columns are the positions [0 .. width-1], the index is the default
    one, and a record with fewer fields than the width is filled with [NaN]
    (a record with more is a parse error of the parser itself). *)
Definition frame_of_csv (parsed : nat * list (list cell)) : DataFrame :=
  let (width, rows) := parsed in
  mkframe (map Pos (seq 0 width)) (RangeIndex (List.length rows))
          (map (fit width) rows).

(** The position of the first column that carries a label, counting from
    [i]. *)
Fixpoint find_label_from (l : label) (cols : list label) (i : nat)
  : option nat :=
  match cols with
  | [] => None
  | c :: cols' =>
      if label_eqb c l then Some i else find_label_from l cols' (S i)
  end.

Definition find_label (l : label) (cols : list label) : option nat :=
  find_label_from l cols O.

(** Union of column labels in order of first appearance. *)
Definition union_labels (a b : list label) : list label :=
  (a ++ filter (fun l => negb (existsb (label_eqb l) a)) b)%list.

(** A row of a frame with columns [from] laid out on the columns [to]: a
    column the frame does not have is [NaN]. *)
Definition reindex (from to : list label) (row : list cell) : list cell :=
  map (fun l => match find_label l from with
                | Some i => nth i row NaN
                | None => NaN
                end) to.

(** [pd.concat(frames, ignore_index=True)]: the rows of the frames one after
    the other, in the order of the list, on the union of their columns, with
    a fresh default index.  An empty list is a [ValueError]. *)
Definition concat (frames : list DataFrame) : except DataFrame :=
  match frames with
  | [] => Err (mkexn "ValueError" "No objects to concatenate")
  | _ =>
      let cols := fold_left union_labels (map columns frames) [] in
      let rows :=
        List.concat
          (map (fun f => map (reindex (columns f) cols) (data f)) frames) in
      Ok (mkframe cols (RangeIndex (List.length rows)) rows)
  end.

Definition decimal (n : nat) : string :=
  DecimalString.NilZero.string_of_uint (Nat.to_uint n).

(** The [ValueError] of an assignment of [new_len] labels to an axis of
    [old_len]. *)
Definition length_mismatch (old_len new_len : nat) : exn :=
  mkexn "ValueError"
        ("Length mismatch: Expected axis has " ++ decimal old_len
         ++ " elements, new values have " ++ decimal new_len ++ " elements")%string.

(** [KeyError(name)]; its [str] is the [repr] of the name. *)
Definition KeyError (name : string) : exn :=
  mkexn "KeyError" ("'" ++ name ++ "'")%string.

(** [df.columns = names]: a [ValueError] unless there is one name per
    column. *)
Definition set_columns (df : DataFrame) (names : list string)
  : except DataFrame :=
  if Nat.eqb (List.length names) (List.length (columns df))
  then Ok (mkframe (map Name names) (index df) (data df))
  else Err (length_mismatch (List.length (columns df)) (List.length names)).

(** [df[name]]: the values of a column, or [KeyError]. *)
Definition getitem (df : DataFrame) (name : string) : except (list cell) :=
  match find_label (Name name) (columns df) with
  | Some i => Ok (map (fun row => nth i row NaN) (data df))
  | None => Err (KeyError name)
  end.

Fixpoint replace_nth (i : nat) (v : cell) (row : list cell) : list cell :=
  match row, i with
  | [], _ => []
  | _ :: r, O => v :: r
  | c :: r, S i' => c :: replace_nth i' v r
  end.

Fixpoint remove_nth {A} (i : nat) (l : list A) : list A :=
  match l, i with
  | [], _ => []
  | _ :: r, O => r
  | c :: r, S i' => c :: remove_nth i' r
  end.

Fixpoint zip_rows (f : cell -> list cell -> list cell)
  (vals : list cell) (rows : list (list cell)) : list (list cell) :=
  match rows with
  | [] => []
  | row :: rows' =>
      match vals with
      | [] => f NaN row :: zip_rows f [] rows'
      | v :: vals' => f v row :: zip_rows f vals' rows'
      end
  end.

(** [df[name] = values] for a position-aligned column of values: an existing
    column is replaced in place, a new one is added at the end. *)
Definition setitem (df : DataFrame) (name : string) (vals : list cell)
  : DataFrame :=
  match find_label (Name name) (columns df) with
  | Some i => mkframe (columns df) (index df)
                      (zip_rows (replace_nth i) vals (data df))
  | None => mkframe (columns df ++ [Name name]) (index df)
                    (zip_rows (fun v row => row ++ [v]) vals (data df))
  end%list.

(** [df.set_index(name, inplace=True)]: the column becomes the index and
    leaves the columns; [KeyError] when there is no such column. *)
Definition set_index (df : DataFrame) (name : string) : except DataFrame :=
  match find_label (Name name) (columns df) with
  | Some i =>
      Ok (mkframe (remove_nth i (columns df))
                  (NamedIndex name (map (fun row => nth i row NaN) (data df)))
                  (map (remove_nth i) (data df)))
  | None => Err (KeyError name)
  end.

(** [len(df)]. *)
Definition len (df : DataFrame) : nat := List.length (data df).

(** ** [DataFrame.to_csv] *)

(** How a cell is written, and the line terminator. *)
Variable render : cell -> string.
Variable linesep : string.

Definition label_text (l : label) : string :=
  match l with
  | Pos n => decimal n
  | Name s => s
  end.

Definition index_label (ix : Index) : string :=
  match ix with
  | RangeIndex _ => ""
  | NamedIndex name _ => name
  end.

Definition index_texts (ix : Index) : list string :=
  match ix with
  | RangeIndex n => map decimal (seq 0 n)
  | NamedIndex _ values => map render values
  end.

Definition csv_line (fields : list string) : string :=
  String.concat "," fields ++ linesep.

Fixpoint csv_rows (ixs : list string) (rows : list (list cell))
  : list string :=
  match rows with
  | [] => []
  | row :: rows' =>
      csv_line (hd "" ixs :: map render row) :: csv_rows (tl ixs) rows'
  end.

(** The text [to_csv] writes (with the index, the default): a header line
    with the index label and the column labels, then one line per row with
    the index value first.  Labels are written as they are, which is what
    the writer does for labels free of separators and quotes.  A value is
    written by [render] on its own: that the writer formats a column by its
    dtype, and the index as a whole, is not modelled, so the text of a value
    is only as exact as [render] is for its column. *)
Definition to_csv_text (df : DataFrame) : string :=
  String.concat ""
    (csv_line (index_label (index df) :: map label_text (columns df))
     :: csv_rows (index_texts (index df)) (data df)).

End Frames.

Arguments RangeIndex {cell} n.
Arguments NamedIndex {cell} name values.
Arguments mkframe {cell} columns index data.
Arguments columns {cell} d.
Arguments index {cell} d.
Arguments data {cell} d.
Arguments frame_of_csv {cell} NaN parsed.
Arguments fit {cell} NaN width row.
Arguments reindex {cell} NaN from to row.
Arguments concat {cell} NaN frames.
Arguments set_columns {cell} df names.
Arguments getitem {cell} NaN df name.
Arguments setitem {cell} NaN df name vals.
Arguments set_index {cell} NaN df name.
Arguments len {cell} df.
Arguments to_csv_text {cell} render linesep df.
Arguments replace_nth {cell} i v row.
Arguments zip_rows {cell} NaN f vals rows.
Arguments csv_rows {cell} render linesep ixs rows.
Arguments index_texts {cell} render ix.
Arguments index_label {cell} ix.

End Pandas.

(* ================================================================== *)
(** * [pathlib] on POSIX: the text of a path and of a join *)
(* ================================================================== *)

Module Pathlib.
Local Open Scope string_scope.

Definition is_sep (c : ascii) : bool := Ascii.eqb c "/".

(** [part.split('/')]. *)
Fixpoint split (part : string) : list string :=
  match part with
  | EmptyString => [EmptyString]
  | String c rest =>
      if is_sep c then EmptyString :: split rest
      else match split rest with
           | [] => [String c EmptyString]
           | x :: xs => String c x :: xs
           end
  end.



(** The components [parse_parts] keeps: the empty one and ['.'] are
    dropped. *)
Definition keeps (x : string) : bool :=
  negb (String.eqb x "") && negb (String.eqb x ".").

Definition parse_parts (part : string) : list string :=
  filter keeps (split part).




(** A text without ['/']. *)
Fixpoint no_sep (s : string) : bool :=
  match s with
  | EmptyString => true
  | String c rest => negb (is_sep c) && no_sep rest
  end.

End Pathlib.

(* ================================================================== *)
(** * The libraries and the machine the code runs on *)
(* ================================================================== *)

Module Environment.
Import Effects.

(** [requests.Response], the two attributes the code reads. *)
Record response : Type := mkresponse {
  status_code : Z;
  content : list Byte.byte
}.

(** What the code calls and does not define.  The remote source is a
    function from the URL to what a GET gives: a response, or the exception
    of the transport. *)
Record Env : Type := mkEnv {
  cell : Type;
  NaN : cell;
  archive : Type;
  (** [requests.get(url)] *)
  requests_get : string -> except response;
  (** [zipfile.ZipFile(io.BytesIO(content))] *)
  ZipFile : list Byte.byte -> except archive;
  (** [zip_file.namelist()] *)
  namelist : archive -> list string;
  (** [zip_file.open(name)] *)
  zip_open : archive -> string -> except (list Byte.byte);
  (** the parser of [pd.read_csv(csv_file, header=None)]: the number of
      columns and the records *)
  csv_parse : list Byte.byte -> except (nat * list (list cell));
  (** [pd.to_datetime(., unit='ms')] on one value *)
  to_datetime_ms : cell -> except cell;
  (** how [to_csv] writes a value, and [os.linesep] *)
  render : cell -> string;
  linesep : string;
  (** [str(Path(s))] and [str(Path(p) / s)] *)
  Path : string -> string;
  joinpath : string -> string -> string;
  (** [Path.mkdir(parents=True, exist_ok=True)] and opening a file for
      writing: the [OSError] raised, if any *)
  mkdir_error : string -> option exn;
  open_error : string -> option exn;
  (** whether [strftime] of the C library writes [%Y] in four digits *)
  strftime_pads_year : bool
}.

End Environment.

(* ================================================================== *)
(** * [class BinanceDataDownloader] *)
(* ================================================================== *)

Module Downloader.
Import Calendar Effects Pandas Environment.
Local Open Scope py_scope.

(** The attributes of an instance. *)
Record BinanceDataDownloader : Type := mkdownloader {
  kline_url_prefix : string;
  base_path : string
}.

Section Code.

Variable E : Env.

Local Abbreviation Frame := (DataFrame (cell E)).

(** [self.base_path.mkdir(parents=True, exist_ok=True)]: the call raises the
    error of the machine, or is recorded with its path.  What the call makes
    (the missing parents too, nothing when the directory is there) is not
    modelled. *)
Definition mkdir (path : string) : M unit :=
  fun w =>
    match mkdir_error E path with
    | Some e => (Raise e, w)
    | None =>
        (Return tt,
         mkworld (stdout w) (requests w) (dirs w ++ [path]) (files w))
    end.

(** [__init__(self, base_path="data")]. *)
Definition __init__ (base_path : string) : M BinanceDataDownloader :=
  let self :=
    mkdownloader "https://data.binance.vision/data/spot/daily/klines"
                 (Path E base_path) in
  mkdir (Downloader.base_path self) ;;;
  ret self.

(** [get_url(self, timeframe, symbol, dt)]. *)
Definition get_url (self : BinanceDataDownloader)
  (timeframe symbol : string) (dt : date) : string :=
  let date_str := strftime (strftime_pads_year E) dt "%Y-%m-%d" in
  (kline_url_prefix self ++ "/" ++ symbol ++ "/" ++ timeframe ++ "/"
   ++ symbol ++ "-" ++ timeframe ++ "-" ++ date_str ++ ".zip")%string.

(** [requests.get(url)]: the request goes out, then the remote answers. *)
Definition http_get (url : string) : M response :=
  fun w =>
    let w' := mkworld (stdout w) (requests w ++ [url]) (dirs w) (files w) in
    match requests_get E url with
    | Ok r => (Return r, w')
    | Err e => (Raise e, w')
    end.

(** [l[0]]. *)
Definition first_item {A} (l : list A) : except A :=
  match l with
  | [] => Err (mkexn "IndexError" "list index out of range")
  | x :: _ => Ok x
  end.

(** [pd.read_csv(csv_file, header=None)]. *)
Definition read_csv (csv_file : list Byte.byte) : except Frame :=
  match csv_parse E csv_file with
  | Ok parsed => Ok (frame_of_csv (NaN E) parsed)
  | Err e => Err e
  end.

(** What [date + timedelta] raises beyond [date.max]. *)
Definition OverflowError : exn :=
  mkexn "OverflowError" "date value out of range".

(** [current_date += timedelta(days=1)]. *)
Definition next_day (current_date : date) : M date :=
  match add_one_day current_date with
  | Some d => ret d
  | None => raise OverflowError
  end.

(** The two messages of the loop (lines 91 and 93). *)
Definition no_data_line (current_date : date) : string :=
  ("No data available for " ++ isoformat current_date
   ++ " - Binance is probably having a coffee break")%string.

Definition error_line (current_date : date) (e : exn) : string :=
  ("Error downloading data for " ++ isoformat current_date ++ ": "
   ++ exc_str e ++ " - Time to blame the internet")%string.

(** The body of the [try] of the loop (lines 81-91): on status 200 the
    archive is opened, its first member read as a table and the table
    appended to [all_data] (the last statement, so a raise leaves the list as
    it was); on another status a line is printed. *)
Definition try_body (url : string) (current_date : date)
  (all_data : list Frame) : M (list Frame) :=
  response <- http_get url ;;
  if status_code response =? 200 then
    zip_file <- lift (ZipFile E (content response)) ;;
    csv_filename <- lift (first_item (namelist E zip_file)) ;;
    csv_file <- lift (zip_open E zip_file csv_filename) ;;
    df <- lift (read_csv csv_file) ;;
    ret (all_data ++ [df])%list
  else
    print (no_data_line current_date) ;;;
    ret all_data.

(** The [except Exception as e] clause (lines 92-93). *)
Definition except_clause (current_date : date) (all_data : list Frame)
  (e : exn) : M (list Frame) :=
  print (error_line current_date e) ;;;
  ret all_data.

(** Lines 79-93: one day of the loop, up to the increment. *)
Definition fetch_day (self : BinanceDataDownloader)
  (symbol timeframe : string) (current_date : date)
  (all_data : list Frame) : M (list Frame) :=
  let url := get_url self timeframe symbol current_date in
  try_except (try_body url current_date all_data)
             (except_clause current_date all_data).

(** [while current_date <= end_date: ...] (lines 78-95).  [fuel] bounds the
    number of iterations the model unrolls. *)
Fixpoint while_loop (fuel : nat) (self : BinanceDataDownloader)
  (symbol timeframe : string) (end_date current_date : date)
  (all_data : list Frame) : M (list Frame) :=
  if date_le current_date end_date then
    match fuel with
    | O => out_of_fuel
    | S fuel' =>
        all_data' <- fetch_day self symbol timeframe current_date all_data ;;
        current_date' <- next_day current_date ;;
        while_loop fuel' self symbol timeframe end_date current_date'
                   all_data'
    end
  else ret all_data.

(** The names of line 102-106. *)
Definition COLUMNS : list string :=
  ["timestamp"; "open"; "high"; "low"; "close"; "volume"; "close_time";
   "quote_volume"; "trades"; "taker_buy_base"; "taker_buy_quote"; "ignore"].

(** [pd.to_datetime(series, unit='ms')]: every value converted, the first
    failure raised. *)
Fixpoint to_datetime (values : list (cell E)) : except (list (cell E)) :=
  match values with
  | [] => Ok []
  | v :: values' =>
      match to_datetime_ms E v with
      | Err e => Err e
      | Ok t =>
          match to_datetime values' with
          | Err e => Err e
          | Ok ts => Ok (t :: ts)
          end
      end
  end.

(** [df.to_csv(path)]: the file is opened for writing, which fails as the
    machine says for this path ([open_error], a missing directory included),
    and the write of the text of the table is recorded.  The answer of the
    machine is fixed for a run: that it depends on what the file system
    holds at that moment is not modelled. *)
Definition to_csv (df : Frame) (path : string) : M unit :=
  fun w =>
    match open_error E path with
    | Some e => (Raise e, w)
    | None =>
        (Return tt,
         mkworld (stdout w) (requests w) (dirs w)
                 ((path, to_csv_text (render E) (linesep E) df) :: files w))
    end.

(** The name of the output file (line 113). *)
Definition output_name (symbol timeframe : string)
  (start_date end_date : date) : string :=
  (symbol ++ "_" ++ timeframe ++ "_" ++ isoformat start_date ++ "_"
   ++ isoformat end_date ++ ".csv")%string.

(** The message of line 115. *)
Definition saved_line (output_file : string) : string :=
  ("Data saved to " ++ output_file
   ++ " - Your hard drive is now slightly more valuable")%string.

(** Lines 97-118: what follows the loop. *)
Definition after_loop (self : BinanceDataDownloader)
  (symbol timeframe : string) (start_date end_date : date)
  (all_data : list Frame) : M (option Frame) :=
  match all_data with
  | [] => ret None
  | _ :: _ =>
      combined_df <- lift (concat (NaN E) all_data) ;;
      combined_df <- lift (set_columns combined_df COLUMNS) ;;
      timestamp <- lift (getitem (NaN E) combined_df "timestamp") ;;
      converted <- lift (to_datetime timestamp) ;;
      let combined_df := setitem (NaN E) combined_df "timestamp" converted in
      combined_df <- lift (set_index (NaN E) combined_df "timestamp") ;;
      let output_file :=
        joinpath E (base_path self)
                 (output_name symbol timeframe start_date end_date) in
      to_csv combined_df output_file ;;;
      print (saved_line output_file) ;;;
      ret (Some combined_df)
  end.

(** [download_data(self, symbol, timeframe, start_date, end_date)].  The
    loop is given as many iterations as there are days from [start_date] to
    [end_date]. *)
Definition download_data (self : BinanceDataDownloader)
  (symbol timeframe : string) (start_date end_date : date)
  : M (option Frame) :=
  let current_date := start_date in
  let all_data := [] in
  all_data <- while_loop (Z.to_nat (days_between start_date end_date + 1))
                self symbol timeframe end_date current_date all_data ;;
  after_loop self symbol timeframe start_date end_date all_data.

End Code.

End Downloader.

(* ================================================================== *)
(** * Notions the statements use *)
(* ================================================================== *)

Module Notions.
Import Calendar Effects Pandas Environment Downloader.

(** The [n] consecutive days that start at [d]. *)
Fixpoint days_from (n : nat) (d : date) : list date :=
  match n with
  | O => []
  | S n' => d :: days_from n' (tomorrow d)
  end.

(** The calendar days of the closed range [start_date .. end_date], in
    ascending order: [(end_date - start_date).days + 1] of them, none when
    [start_date] is after [end_date]. *)
Definition date_range (start_date end_date : date) : list date :=
  days_from (Z.to_nat (days_between start_date end_date + 1)) start_date.

(** Nothing or one element. *)
Definition option_list {A} (o : option A) : list A :=
  match o with
  | Some a => [a]
  | None => []
  end.

(** The integers [a, a+1, ..., a+n-1]. *)
Fixpoint count_up (a : Z) (n : nat) : list Z :=
  match n with
  | O => []
  | S n' => a :: count_up (a + 1) n'
  end.

(** The spec's rendering of a date, [YYYY-MM-DD], written digit by digit. *)
Definition YYYY_MM_DD (d : date) : string :=
  String (digit (year d / 1000)) (String (digit (year d / 100))
  (String (digit (year d / 10)) (String (digit (year d))
  (String "-" (String (digit (month d / 10)) (String (digit (month d))
  (String "-" (String (digit (day d / 10)) (String (digit (day d))
  EmptyString))))))))).

(** The fixed prefix of the archive host. *)
Definition base_url : string :=
  "https://data.binance.vision/data/spot/daily/klines".

Section Days.

Variable E : Env.
Variable self : BinanceDataDownloader.
Variables symbol timeframe : string.

(** How a day of the loop ends, in the spec's words: fetched with a table,
    skipped as no data (a status other than 200), or skipped with the
    exception that was caught. *)
Inductive day_outcome : Type :=
| Fetched (df : DataFrame (cell E))
| NoData
| Failed (e : exn).

(** The table in the body of a response: the body opens as an archive, the
    archive lists a member, the first member opens and parses; or the first
    exception on the way. *)
Definition read_archive (body : list Byte.byte)
  : except (DataFrame (cell E)) :=
  match ZipFile E body with
  | Err e => Err e
  | Ok zip_file =>
      match first_item (namelist E zip_file) with
      | Err e => Err e
      | Ok csv_filename =>
          match zip_open E zip_file csv_filename with
          | Err e => Err e
          | Ok csv_file => read_csv E csv_file
          end
      end
  end.

(** The outcome of the day whose archive is at [url]. *)
Definition outcome_of (url : string) : day_outcome :=
  match requests_get E url with
  | Err e => Failed e
  | Ok r =>
      if status_code r =? 200 then
        match read_archive (content r) with
        | Ok df => Fetched df
        | Err e => Failed e
        end
      else NoData
  end.

Definition day_outcome_of (d : date) : day_outcome :=
  outcome_of (get_url E self timeframe symbol d).

(** The table of a day, if the day succeeds. *)
Definition table_of (d : date) : option (DataFrame (cell E)) :=
  match day_outcome_of d with
  | Fetched df => Some df
  | _ => None
  end.

(** A day fails when it yields no table. *)
Definition day_fails (d : date) : Prop := table_of d = None.

(** The tables of the successful days among [days], in the order of
    [days]. *)
Fixpoint tables_of (days : list date) : list (DataFrame (cell E)) :=
  match days with
  | [] => []
  | d :: days' =>
      match table_of d with
      | Some df => df :: tables_of days'
      | None => tables_of days'
      end
  end.

(** The line a failing day prints. *)
Definition day_line (d : date) : list string :=
  match day_outcome_of d with
  | Fetched _ => []
  | NoData => [no_data_line d]
  | Failed e => [error_line d e]
  end.

(** The world after the loop went through [days]: one request per day, in
    order, and the lines of the failing days; no directory and no file is
    touched. *)
Definition world_after_days (w : world) (days : list date) : world :=
  mkworld (stdout w ++ flat_map day_line days)
          (requests w ++ map (get_url E self timeframe symbol) days)
          (dirs w) (files w).

End Days.

Arguments Fetched {E} df.
Arguments NoData {E}.
Arguments Failed {E} e.

(** The width of a table: its number of columns. *)
Definition width {cell} (df : DataFrame cell) : nat :=
  List.length (columns df).

(** The largest width among tables. *)
Definition max_width {cell} (frames : list (DataFrame cell)) : nat :=
  fold_right Nat.max O (map width frames).

(** The rows of tables, one table after the other. *)
Definition all_rows {cell} (frames : list (DataFrame cell))
  : list (list cell) :=
  List.concat (map data frames).

(** The 11 names of the data columns of the result. *)
Definition DATA_COLUMNS : list string :=
  ["open"; "high"; "low"; "close"; "volume"; "close_time";
   "quote_volume"; "trades"; "taker_buy_base"; "taker_buy_quote"; "ignore"].

(** The header line of the output file, without its terminator. *)
Definition HEADER : string :=
  "timestamp,open,high,low,close,volume,close_time,quote_volume,trades,taker_buy_base,taker_buy_quote,ignore".

(** A table as [read_csv(header=None)] builds it: the columns are the
    positions [0 .. width-1] and every row has one cell per column. *)
Definition csv_frame {cell} (df : DataFrame cell) : Prop :=
  columns df = map Pos (seq 0 (width df))
  /\ Forall (fun row => List.length row = width df) (data df).

(** The rows of the tables laid out on 12 columns, one table after the
    other: a row of a narrower table is filled with [NaN]. *)
Definition rows12 {cell} (NaN : cell) (frames : list (DataFrame cell))
  : list (list cell) :=
  map (fit NaN 12) (all_rows frames).

(** The first field of these rows: the timestamps, in milliseconds. *)
Definition timestamps {cell} (NaN : cell) (frames : list (DataFrame cell))
  : list cell :=
  map (hd NaN) (rows12 NaN frames).

(** The table the call builds from the tables of the days, given the
    converted timestamps [ts]: indexed by [ts] under the name [timestamp],
    with the 11 remaining fields of every row as its columns. *)
Definition result_table {cell} (NaN : cell) (frames : list (DataFrame cell))
  (ts : list cell) : DataFrame cell :=
  mkframe (map Name DATA_COLUMNS) (NamedIndex "timestamp" ts)
          (map (@tl cell) (rows12 NaN frames)).

(** One more day in a leap year. *)
Definition leap_day (y : Z) : Z := if _is_leap y then 1 else 0.

(** The name of the output file, as the spec writes it:
    [{symbol}_{timeframe}_{start_date}_{end_date}.csv]. *)
Definition file_name (symbol timeframe : string)
  (start_date end_date : date) : string :=
  (symbol ++ "_" ++ timeframe ++ "_" ++ YYYY_MM_DD start_date ++ "_"
   ++ YYYY_MM_DD end_date ++ ".csv")%string.




End Notions.

(* ================================================================== *)
(** * A small remote source, for running the code on examples *)
(* ================================================================== *)

Module Sample.
Import Calendar Effects Pandas Environment Downloader Notions.

Definition newline : string := String (ascii_of_nat 10) EmptyString.

Definition show (z : Z) : string :=
  DecimalString.NilZero.string_of_int (Z.to_int z).

(** An archive here is the list of its members; a body opens as an archive
    with the single member [klines.csv] unless it is empty. *)
Definition open_archive (body : list Byte.byte)
  : except (list (string * list Byte.byte)) :=
  match body with
  | [] => Err (mkexn "BadZipFile" "File is not a zip file")
  | _ => Ok [("klines.csv", body)]
  end.

Fixpoint member (a : list (string * list Byte.byte)) (name : string)
  : except (list Byte.byte) :=
  match a with
  | [] => Err (mkexn "KeyError" name)
  | (n, b) :: a' => if String.eqb n name then Ok b else member a' name
  end.

(** The first byte of a member gives the number of columns; every further
    byte is one candle whose open time is that many seconds. *)
Definition candle (b : Byte.byte) : list Z :=
  [Z.of_N (Byte.to_N b) * 1000; 10; 20; 5; 15; 100; 1999; 1500; 42; 50;
   750; 0].

Definition parse (f : list Byte.byte) : except (nat * list (list Z)) :=
  match f with
  | [] => Err (mkexn "EmptyDataError" "No columns to parse from file")
  | w :: rows => Ok (N.to_nat (Byte.to_N w), map candle rows)
  end.

(** Milliseconds to nanoseconds; a negative value is refused. *)
Definition to_ns (ms : Z) : except Z :=
  if ms <? 0 then Err (mkexn "OutOfBoundsDatetime" "out of bounds")
  else Ok (ms * 1000000).

Definition klines (day : string) : string :=
  (base_url ++ "/BTCUSDT/1h/BTCUSDT-1h-" ++ day ++ ".zip")%string.

(** The remote: 1 Jan and 3 Jan 2024 hold one candle each, 2 Jan is a 404,
    4 Jan holds a table of 13 columns, 5 Jan is not an archive, 31 Dec 9999
    is a 404, and nothing else can be reached. *)
Definition remote (url : string) : except response :=
  if String.eqb url (klines "2024-01-01")
  then Ok (mkresponse 200 [Byte.x0c; Byte.x01])
  else if String.eqb url (klines "2024-01-02")
  then Ok (mkresponse 404 [])
  else if String.eqb url (klines "2024-01-03")
  then Ok (mkresponse 200 [Byte.x0c; Byte.x03])
  else if String.eqb url (klines "2024-01-04")
  then Ok (mkresponse 200 [Byte.x0d; Byte.x04])
  else if String.eqb url (klines "2024-01-05")
  then Ok (mkresponse 200 [])
  else if String.eqb url (klines "9999-12-31")
  then Ok (mkresponse 404 [])
  else Err (mkexn "ConnectionError" "unreachable").

(** The libraries, on a machine whose C library writes [%Y] unpadded. *)
Definition env : Env :=
  mkEnv Z (-1) (list (string * list Byte.byte))
        remote open_archive (map fst) member parse to_ns show newline
        (fun s => s) (fun p s => (p ++ "/" ++ s)%string)
        (fun _ => None) (fun _ => None) false.

Definition downloader : BinanceDataDownloader :=
  mkdownloader base_url "data".

Definition jan (d : Z) : date := mkdate 2024 1 d.

(** The scenario of the spec: the range 1 Jan .. 3 Jan 2024, where the
    second day is a 404.  The table and the world to expect from the empty
    world. *)
Definition january_table : DataFrame Z :=
  mkframe (map Name DATA_COLUMNS)
          (NamedIndex "timestamp" [1000000000; 3000000000])
          [[10; 20; 5; 15; 100; 1999; 1500; 42; 50; 750; 0];
           [10; 20; 5; 15; 100; 1999; 1500; 42; 50; 750; 0]].

Definition january_path : string :=
  "data/BTCUSDT_1h_2024-01-01_2024-01-03.csv".

Definition january_text : string :=
  (HEADER ++ newline
   ++ "1000000000,10,20,5,15,100,1999,1500,42,50,750,0" ++ newline
   ++ "3000000000,10,20,5,15,100,1999,1500,42,50,750,0" ++ newline)%string.

Definition january_world : world :=
  mkworld [no_data_line (jan 2); saved_line january_path]
          [klines "2024-01-01"; klines "2024-01-02"; klines "2024-01-03"]
          []
          [(january_path, january_text)].

End Sample.

(* ================================================================== *)
(** * The two scripts: the [__main__] block and [test_data.py] *)
(* ================================================================== *)

Module Scripts.
Import Calendar Effects Pandas Environment Downloader.
Local Open Scope py_scope.

Section Scripts.

Variable E : Env.

(** What [print] shows of a table ([str(df)]): left to the library. *)
Variable frame_text : DataFrame (cell E) -> string.

(** [df.head()]: the first five rows, with their index values. *)
Definition head (df : DataFrame (cell E)) : DataFrame (cell E) :=
  mkframe (columns df)
          (match index df with
           | RangeIndex n => RangeIndex (Nat.min 5 n)
           | NamedIndex name values => NamedIndex name (firstn 5 values)
           end)
          (firstn 5 (data df)).

(** The text of [df.to_csv(path, index=False)]: the column labels, then
    the cells of every row; the index is left out. *)
Definition to_csv_text_no_index (df : DataFrame (cell E)) : string :=
  String.concat ""
    (csv_line (linesep E) (map label_text (columns df))
     :: map (fun row => csv_line (linesep E) (map (render E) row))
            (data df)).

(** [df.to_csv(path, index=False)] on a path given as a string. *)
Definition to_csv_no_index (df : DataFrame (cell E)) (path : string)
  : M unit :=
  fun w =>
    match open_error E path with
    | Some e => (Raise e, w)
    | None =>
        (Return tt,
         mkworld (stdout w) (requests w) (dirs w)
                 ((path, to_csv_text_no_index df) :: files w))
    end.

(** The message of line 130. *)
Definition downloaded_line (candles : nat) : string :=
  ("Downloaded " ++ decimal candles
   ++ " candles. Time to make some questionable trading decisions!")%string.

(** [binance_downloader.py], lines 120-130: the [__main__] block. *)
Definition main : M unit :=
  downloader <- __init__ E "data" ;;
  df <- download_data E downloader "BTCUSDT" "1m"
          (mkdate 2024 1 1) (mkdate 2024 1 31) ;;
  match df with
  | Some df => print (downloaded_line (len df))
  | None => ret tt
  end.

(** The header line of the exported file, without its terminator. *)
Definition EXPORT_HEADER : string :=
  "open,high,low,close,volume,close_time,quote_volume,trades,taker_buy_base,taker_buy_quote,ignore".

(** What [df.to_csv] raises when [df] is [None]. *)
Definition AttributeError : exn :=
  mkexn "AttributeError" "'NoneType' object has no attribute 'to_csv'".

(** [test_data.py], the whole script: the export of line 20 is outside the
    test of line 16. *)
Definition test_data : M unit :=
  downloader <- __init__ E "data" ;;
  df <- download_data E downloader "BTCUSDT" "1h"
          (mkdate 2024 1 1) (mkdate 2024 1 31) ;;
  match df with
  | Some df => print (frame_text (head df))
  | None => ret tt
  end ;;;
  match df with
  | Some df => to_csv_no_index df "exported_data.csv"
  | None => raise AttributeError
  end ;;;
  print "Data exported to exported_data.csv".

End Scripts.

End Scripts.

(* ================================================================== *)
(** * More machines, for running the code on examples *)
(* ================================================================== *)

Module Machines.
Import Calendar Effects Pandas Environment Downloader Notions.

(** A machine like [Sample.env] with its remote, its conversion of
    timestamps and its answer to opening a file for writing chosen. *)
Definition machine (remote : string -> except response)
  (parse : list Byte.byte -> except (nat * list (list Z)))
  (convert : Z -> except Z) (open_error : string -> option exn) : Env :=
  mkEnv Z (-1) (list (string * list Byte.byte))
        remote Sample.open_archive (map fst) Sample.member parse convert
        Sample.show Sample.newline
        (fun s => s) (fun p s => (p ++ "/" ++ s)%string)
        (fun _ => None) open_error false.

(** A remote without any data: every GET is a 404. *)
Definition no_data (url : string) : except response :=
  Ok (mkresponse 404 []).

Definition offline : Env :=
  machine no_data Sample.parse Sample.to_ns (fun _ => None).

(** A conversion that refuses the timestamp 3000. *)
Definition strict_ns (ms : Z) : except Z :=
  if ms =? 3000
  then Err (mkexn "OutOfBoundsDatetime" "out of bounds")
  else Sample.to_ns ms.

Definition strict : Env :=
  machine Sample.remote Sample.parse strict_ns (fun _ => None).

(** A machine where no file can be opened for writing. *)
Definition PermissionError : exn :=
  mkexn "PermissionError" "Permission denied".

Definition read_only : Env :=
  machine Sample.remote Sample.parse Sample.to_ns
          (fun _ => Some PermissionError).

(** A parser that gives every record as many fields as the first byte
    says, 12 at most. *)
Definition parse_fields (f : list Byte.byte)
  : except (nat * list (list Z)) :=
  match f with
  | [] => Err (mkexn "EmptyDataError" "No columns to parse from file")
  | w :: rows =>
      Ok (N.to_nat (Byte.to_N w),
          map (fun b => firstn (N.to_nat (Byte.to_N w)) (Sample.candle b))
              rows)
  end.

(** A remote where 1 Jan 2024 holds a candle of 11 fields, 2 Jan one of
    12 fields, and every other day is a 404. *)
Definition uneven (url : string) : except response :=
  if String.eqb url (Sample.klines "2024-01-01")
  then Ok (mkresponse 200 [Byte.x0b; Byte.x01])
  else if String.eqb url (Sample.klines "2024-01-02")
  then Ok (mkresponse 200 [Byte.x0c; Byte.x02])
  else Ok (mkresponse 404 []).

Definition ragged : Env :=
  machine uneven parse_fields Sample.to_ns (fun _ => None).

(** A remote where only 1 Jan 2024 holds data, two candles, for the
    timeframe [tf]; every other GET is a 404. *)
Definition one_day (tf : string) (url : string) : except response :=
  if String.eqb url
       (base_url ++ "/BTCUSDT/" ++ tf ++ "/BTCUSDT-" ++ tf
        ++ "-2024-01-01.zip")%string
  then Ok (mkresponse 200 [Byte.x0c; Byte.x01; Byte.x02])
  else Ok (mkresponse 404 []).

Definition minutes : Env :=
  machine (one_day "1m") Sample.parse Sample.to_ns (fun _ => None).

Definition hours : Env :=
  machine (one_day "1h") Sample.parse Sample.to_ns (fun _ => None).

(** What [print] shows of a table here: its number of rows. *)
Definition rows_text (df : DataFrame Z) : string :=
  Pandas.decimal (len df).



End Machines.

(* ================================================================== *)
(** * Facts about the calendar *)
(* ================================================================== *)

Import Calendar Effects Pandas Environment Downloader Notions.
Local Open Scope list_scope.
Local Open Scope Z_scope.

Lemma days_before_year_succ (y : Z) :
  _days_before_year (y + 1) = _days_before_year y + 365 + leap_day y.
Proof.
  unfold _days_before_year, leap_day, _is_leap.
  replace (y + 1 - 1) with y by lia.
  destruct (y mod 4 =? 0) eqn:H4; destruct (y mod 100 =? 0) eqn:H100;
    destruct (y mod 400 =? 0) eqn:H400; simpl;
    rewrite ?Z.eqb_eq, ?Z.eqb_neq in *;
    Z.div_mod_to_equations; lia.
Qed.

Lemma days_before_year_steps (n : nat) (a : Z) :
  _days_before_year a + 365 * Z.of_nat n <= _days_before_year (a + Z.of_nat n).
Proof.
  induction n as [|n IH].
  - change (Z.of_nat 0) with 0. replace (a + 0) with a by lia. lia.
  - replace (a + Z.of_nat (S n)) with (a + Z.of_nat n + 1) by lia.
    rewrite days_before_year_succ.
    unfold leap_day. destruct (_is_leap _); lia.
Qed.

Lemma days_before_year_mono (a b : Z) :
  a <= b -> _days_before_year a + 365 * (b - a) <= _days_before_year b.
Proof.
  intros Hab.
  pose proof (days_before_year_steps (Z.to_nat (b - a)) a) as H.
  replace (a + Z.of_nat (Z.to_nat (b - a))) with b in H by lia.
  lia.
Qed.

Lemma month_cases (m : Z) :
  1 <= m <= 12 ->
  m = 1 \/ m = 2 \/ m = 3 \/ m = 4 \/ m = 5 \/ m = 6 \/
  m = 7 \/ m = 8 \/ m = 9 \/ m = 10 \/ m = 11 \/ m = 12.
Proof. lia. Qed.

Ltac each_month H :=
  apply month_cases in H;
  repeat (destruct H as [H | H]); subst.

Lemma days_before_month_succ (y m : Z) :
  1 <= m <= 11 ->
  _days_before_month y (m + 1) = _days_before_month y m + _days_in_month y m.
Proof.
  intros H. assert (H' : 1 <= m <= 12) by lia.
  unfold _days_before_month, _days_in_month.
  each_month H'; try lia; simpl; destruct (_is_leap y); simpl; lia.
Qed.

Lemma days_in_year (y : Z) :
  _days_before_month y 12 + _days_in_month y 12 = 365 + leap_day y.
Proof.
  unfold _days_before_month, _days_in_month, leap_day.
  simpl. destruct (_is_leap y); reflexivity.
Qed.

Lemma days_in_month_bounds (y m : Z) :
  1 <= m <= 12 -> 28 <= _days_in_month y m <= 31.
Proof.
  intros H. unfold _days_in_month.
  each_month H; simpl; destruct (_is_leap y); simpl; lia.
Qed.

Lemma days_before_month_nonneg (y m : Z) :
  1 <= m <= 12 -> 0 <= _days_before_month y m.
Proof.
  intros H. unfold _days_before_month.
  each_month H; simpl; destruct (_is_leap y); simpl; lia.
Qed.

Lemma days_before_month_mono (y m1 m2 : Z) :
  1 <= m1 -> m1 < m2 -> m2 <= 12 ->
  _days_before_month y m1 + _days_in_month y m1 <= _days_before_month y m2.
Proof.
  intros H1 H12 H2.
  assert (Ha : 1 <= m1 <= 12) by lia.
  assert (Hb : 1 <= m2 <= 12) by lia.
  unfold _days_before_month, _days_in_month.
  each_month Ha; each_month Hb; try lia; simpl; destruct (_is_leap y);
    simpl; lia.
Qed.

Lemma valid_fields (d : date) :
  valid d ->
  1 <= year d <= 9999 /\ 1 <= month d <= 12 /\
  1 <= day d <= _days_in_month (year d) (month d).
Proof.
  unfold valid, valid_date, MINYEAR, MAXYEAR. intros H.
  repeat (apply andb_prop in H; destruct H as [H ?]).
  rewrite ?Z.leb_le in *. lia.
Qed.

Lemma valid_intro (d : date) :
  1 <= year d <= 9999 -> 1 <= month d <= 12 ->
  1 <= day d <= _days_in_month (year d) (month d) ->
  valid d.
Proof.
  unfold valid, valid_date, MINYEAR, MAXYEAR. intros.
  repeat (apply andb_true_intro; split); apply Z.leb_le; lia.
Qed.

Lemma toordinal_tomorrow (d : date) :
  valid d -> toordinal (tomorrow d) = toordinal d + 1.
Proof.
  intros H. apply valid_fields in H. destruct H as (Hy & Hm & Hd).
  unfold tomorrow, toordinal, _ymd2ord.
  destruct (day d + 1 <=? _ (year d) (month d)) eqn:Hday; simpl.
  - lia.
  - apply Z.leb_gt in Hday.
    destruct (month d + 1 <=? 12) eqn:Hmon; simpl.
    + apply Z.leb_le in Hmon.
      rewrite days_before_month_succ by lia. lia.
    + apply Z.leb_gt in Hmon.
      assert (Hm12 : month d = 12) by lia. rewrite Hm12 in *.
      rewrite days_before_year_succ.
      pose proof (days_in_year (year d)).
      unfold _days_before_month at 1. simpl. lia.
Qed.

Lemma tomorrow_valid (d : date) :
  valid d -> d <> date_max -> valid (tomorrow d).
Proof.
  intros H Hmax. apply valid_fields in H. destruct H as (Hy & Hm & Hd).
  unfold tomorrow.
  destruct (day d + 1 <=? _ (year d) (month d)) eqn:Hday.
  - apply Z.leb_le in Hday. apply valid_intro; simpl; lia.
  - apply Z.leb_gt in Hday.
    destruct (month d + 1 <=? 12) eqn:Hmon.
    + apply Z.leb_le in Hmon.
      pose proof (days_in_month_bounds (year d) (month d + 1)).
      apply valid_intro; simpl; lia.
    + apply Z.leb_gt in Hmon.
      assert (Hm12 : month d = 12) by lia.
      assert (Hd31 : day d = 31).
      { rewrite Hm12 in *. unfold _days_in_month in *. simpl in *. lia. }
      assert (year d <> 9999).
      { intros Hy9. apply Hmax. destruct d; simpl in *. subst. reflexivity. }
      apply valid_intro; simpl; try lia.
      unfold _days_in_month. simpl. lia.
Qed.

Lemma add_one_day_max : add_one_day date_max = None.
Proof. reflexivity. Qed.

Lemma add_one_day_some (d : date) :
  valid d -> d <> date_max -> add_one_day d = Some (tomorrow d).
Proof.
  intros H Hmax. pose proof (tomorrow_valid d H Hmax) as Hv.
  apply valid_fields in Hv. unfold add_one_day, MINYEAR, MAXYEAR.
  replace (1 <=? year (tomorrow d)) with true
    by (symmetry; apply Z.leb_le; lia).
  replace (year (tomorrow d) <=? 9999) with true
    by (symmetry; apply Z.leb_le; lia).
  reflexivity.
Qed.

Lemma toordinal_lt (a b : date) :
  valid a -> valid b ->
  year a < year b \/
  (year a = year b /\
   (month a < month b \/ (month a = month b /\ day a < day b))) ->
  toordinal a < toordinal b.
Proof.
  intros Ha Hb H.
  apply valid_fields in Ha. destruct Ha as (Hya & Hma & Hda).
  apply valid_fields in Hb. destruct Hb as (Hyb & Hmb & Hdb).
  unfold toordinal, _ymd2ord.
  destruct H as [Hy | [Hy [Hm | [Hm Hd]]]].
  - pose proof (days_before_year_mono (year a + 1) (year b)) as Hmono.
    rewrite days_before_year_succ in Hmono.
    assert (Hin : _days_before_month (year a) (month a)
                  + _days_in_month (year a) (month a)
                  <= 365 + leap_day (year a)).
    { rewrite <- days_in_year.
      destruct (Z.eq_dec (month a) 12) as [-> | Hne]; [lia|].
      pose proof (days_before_month_mono (year a) (month a) 12).
      pose proof (days_in_month_bounds (year a) 12). lia. }
    pose proof (days_before_month_nonneg (year b) (month b) Hmb).
    lia.
  - rewrite Hy in *.
    pose proof (days_before_month_mono (year b) (month a) (month b)). lia.
  - rewrite Hy, Hm. lia.
Qed.

Lemma date_le_toordinal (a b : date) :
  valid a -> valid b ->
  date_le a b = (toordinal a <=? toordinal b).
Proof.
  intros Ha Hb. unfold date_le.
  destruct (year a <? year b) eqn:H1.
  { apply Z.ltb_lt in H1. symmetry. apply Z.leb_le.
    pose proof (toordinal_lt a b Ha Hb). lia. }
  apply Z.ltb_ge in H1.
  destruct (year b <? year a) eqn:H2.
  { apply Z.ltb_lt in H2. symmetry. apply Z.leb_gt.
    pose proof (toordinal_lt b a Hb Ha). lia. }
  apply Z.ltb_ge in H2.
  destruct (month a <? month b) eqn:H3.
  { apply Z.ltb_lt in H3. symmetry. apply Z.leb_le.
    pose proof (toordinal_lt a b Ha Hb). lia. }
  apply Z.ltb_ge in H3.
  destruct (month b <? month a) eqn:H4.
  { apply Z.ltb_lt in H4. symmetry. apply Z.leb_gt.
    pose proof (toordinal_lt b a Hb Ha). lia. }
  apply Z.ltb_ge in H4.
  assert (year a = year b) by lia. assert (month a = month b) by lia.
  unfold toordinal, _ymd2ord. rewrite H, H0.
  destruct (day a <=? day b) eqn:H5; symmetry.
  - apply Z.leb_le in H5. apply Z.leb_le. lia.
  - apply Z.leb_gt in H5. apply Z.leb_gt. lia.
Qed.

Lemma toordinal_max (d : date) :
  valid d -> toordinal d <= toordinal date_max.
Proof.
  intros H.
  assert (Hm : valid date_max) by reflexivity.
  pose proof (date_le_toordinal d date_max H Hm) as Hle.
  apply valid_fields in H. destruct H as (Hy & Hmo & Hd).
  pose proof (days_in_month_bounds (year d) (month d) Hmo).
  assert (date_le d date_max = true).
  { unfold date_le, date_max. simpl.
    destruct (year d <? 9999) eqn:E1; [reflexivity|].
    apply Z.ltb_ge in E1.
    replace (9999 <? year d) with false by (symmetry; apply Z.ltb_ge; lia).
    destruct (month d <? 12) eqn:E2; [reflexivity|].
    apply Z.ltb_ge in E2.
    replace (12 <? month d) with false by (symmetry; apply Z.ltb_ge; lia).
    apply Z.leb_le. lia. }
  rewrite H0 in Hle. symmetry in Hle. apply Z.leb_le in Hle. exact Hle.
Qed.

Lemma toordinal_inj (a b : date) :
  valid a -> valid b -> toordinal a = toordinal b -> a = b.
Proof.
  intros Ha Hb Heq.
  pose proof (toordinal_lt a b Ha Hb).
  pose proof (toordinal_lt b a Hb Ha).
  assert (year a = year b) by lia.
  assert (month a = month b) by lia.
  assert (day a = day b) by lia.
  destruct a, b; simpl in *; congruence.
Qed.


(* ================================================================== *)
(** * Facts about the code *)
(* ================================================================== *)

(** ** Ranges of days *)

Lemma valid_date_max : valid date_max.
Proof. reflexivity. Qed.

Lemma not_max_ordinal (d : date) :
  valid d -> toordinal d < toordinal date_max -> d <> date_max.
Proof. intros _ H ->. lia. Qed.

Lemma ordinal_not_max (d : date) :
  valid d -> d <> date_max -> toordinal d < toordinal date_max.
Proof.
  intros H Hne. pose proof (toordinal_max d H) as Hle.
  destruct (Z.eq_dec (toordinal d) (toordinal date_max)) as [Heq|]; [|lia].
  exfalso. apply Hne. apply toordinal_inj; auto using valid_date_max.
Qed.

Lemma days_from_ordinals (n : nat) : forall d,
  valid d -> toordinal d + Z.of_nat n - 1 <= toordinal date_max ->
  map toordinal (days_from n d) = count_up (toordinal d) n
  /\ Forall valid (days_from n d).
Proof.
  induction n as [|n IH]; intros d Hd Hn; simpl.
  - split; constructor.
  - destruct n as [|n'].
    + simpl. split; [reflexivity | repeat constructor; assumption].
    + assert (Hne : d <> date_max)
        by (apply not_max_ordinal; [assumption | lia]).
      destruct (IH (tomorrow d)) as [IH1 IH2].
      * apply tomorrow_valid; assumption.
      * rewrite toordinal_tomorrow by assumption. lia.
      * rewrite IH1, toordinal_tomorrow by assumption.
        split; [reflexivity | constructor; assumption].
Qed.

Lemma days_from_length (n : nat) (d : date) : List.length (days_from n d) = n.
Proof. revert d. induction n; intros; simpl; congruence. Qed.


Lemma date_range_ordinals (s e : date) :
  valid s -> valid e ->
  map toordinal (date_range s e)
  = count_up (toordinal s) (Z.to_nat (days_between s e + 1))
  /\ Forall valid (date_range s e).
Proof.
  intros Hs He. unfold date_range.
  apply days_from_ordinals; [assumption|].
  pose proof (toordinal_max e He). pose proof (toordinal_max s Hs).
  unfold days_between. lia.
Qed.

(** ** The monad *)

Lemma extend_empty (w : world) : extend w empty_world = w.
Proof. destruct w. unfold extend. simpl. rewrite !app_nil_r. reflexivity. Qed.

Lemma empty_extend (w : world) : extend empty_world w = w.
Proof. destruct w. unfold extend. simpl. rewrite !app_nil_r. reflexivity. Qed.

Lemma extend_assoc (a b c : world) :
  extend (extend a b) c = extend a (extend b c).
Proof. unfold extend. simpl. rewrite <- !app_assoc. reflexivity. Qed.

Lemma oblivious_ret {A} (a : A) : oblivious (ret a).
Proof. intros w. unfold ret. simpl. rewrite extend_empty. reflexivity. Qed.

Lemma oblivious_raise {A} (e : exn) : oblivious (@raise A e).
Proof. intros w. unfold raise. simpl. rewrite extend_empty. reflexivity. Qed.

Lemma oblivious_out_of_fuel {A} : oblivious (@out_of_fuel A).
Proof.
  intros w. unfold out_of_fuel. simpl. rewrite extend_empty. reflexivity.
Qed.

Lemma oblivious_lift {A} (r : except A) : oblivious (lift r).
Proof. destruct r; [apply oblivious_ret | apply oblivious_raise]. Qed.

Lemma oblivious_print (line : string) : oblivious (print line).
Proof.
  intros w. unfold print, extend. simpl. rewrite !app_nil_r. reflexivity.
Qed.

Lemma oblivious_bind {A B} (m : M A) (k : A -> M B) :
  oblivious m -> (forall a, oblivious (k a)) -> oblivious (bind m k).
Proof.
  intros Hm Hk w. unfold bind.
  rewrite (Hm w). destruct (m empty_world) as [[a|e|] w0]; simpl.
  - rewrite (Hk a (extend w w0)), (Hk a w0).
    simpl. rewrite extend_assoc. reflexivity.
  - reflexivity.
  - reflexivity.
Qed.

Lemma oblivious_try_except {A} (m : M A) (h : exn -> M A) :
  oblivious m -> (forall e, oblivious (h e)) -> oblivious (try_except m h).
Proof.
  intros Hm Hh w. unfold try_except.
  rewrite (Hm w). destruct (m empty_world) as [[a|e|] w0]; simpl.
  - reflexivity.
  - rewrite (Hh e (extend w w0)), (Hh e w0).
    simpl. rewrite extend_assoc. reflexivity.
  - reflexivity.
Qed.

Section CodeFacts.

Variable E : Env.
Variable self : BinanceDataDownloader.
Variables symbol timeframe : string.

Lemma oblivious_http_get (url : string) : oblivious (http_get E url).
Proof.
  intros w. unfold http_get, extend.
  destruct (requests_get E url); simpl; rewrite !app_nil_r; reflexivity.
Qed.

Lemma oblivious_to_csv (df : DataFrame (cell E)) (path : string) :
  oblivious (to_csv E df path).
Proof.
  intros w. unfold to_csv. destruct (open_error E path); simpl.
  - rewrite extend_empty. reflexivity.
  - unfold extend. simpl. rewrite !app_nil_r. reflexivity.
Qed.

Lemma oblivious_next_day (d : date) : oblivious (next_day d).
Proof.
  unfold next_day. destruct (add_one_day d);
    [apply oblivious_ret | apply oblivious_raise].
Qed.

Lemma oblivious_fetch_day (d : date) (acc : list (DataFrame (cell E))) :
  oblivious (fetch_day E self symbol timeframe d acc).
Proof.
  unfold fetch_day, try_body, except_clause.
  apply oblivious_try_except.
  - apply oblivious_bind; [apply oblivious_http_get|]. intros r.
    destruct (status_code r =? 200).
    + repeat (apply oblivious_bind; [apply oblivious_lift | intros ?]).
      apply oblivious_ret.
    + apply oblivious_bind;
        [apply oblivious_print | intros ?; apply oblivious_ret].
  - intros e. apply oblivious_bind;
      [apply oblivious_print | intros ?; apply oblivious_ret].
Qed.

Lemma oblivious_while_loop (end_date : date) (fuel : nat) :
  forall d acc,
    oblivious (while_loop E fuel self symbol timeframe end_date d acc).
Proof.
  induction fuel as [|fuel IH]; intros d acc; simpl;
    destruct (date_le d end_date);
    try apply oblivious_ret; try apply oblivious_out_of_fuel.
  apply oblivious_bind; [apply oblivious_fetch_day | intros acc'].
  apply oblivious_bind; [apply oblivious_next_day | intros d'].
  apply IH.
Qed.

Lemma oblivious_after_loop (s e : date) (acc : list (DataFrame (cell E))) :
  oblivious (after_loop E self symbol timeframe s e acc).
Proof.
  unfold after_loop. destruct acc as [|f fs]; [apply oblivious_ret|].
  repeat (apply oblivious_bind; [apply oblivious_lift | intros ?]).
  apply oblivious_bind; [apply oblivious_to_csv | intros ?].
  apply oblivious_bind; [apply oblivious_print | intros ?; apply oblivious_ret].
Qed.

Lemma oblivious_download_data (s e : date) :
  oblivious (download_data E self symbol timeframe s e).
Proof.
  unfold download_data.
  apply oblivious_bind; [apply oblivious_while_loop | intros acc].
  apply oblivious_after_loop.
Qed.

End CodeFacts.

(** ** The loop *)

Section RunFacts.

Variable E : Env.
Variable self : BinanceDataDownloader.
Variables symbol timeframe : string.

Local Abbreviation Frame := (DataFrame (cell E)).

(** One day of the loop always returns: it adds the table of the day, if
    there is one, and otherwise prints the line of the day. *)
Lemma fetch_day_run (d : date) (acc : list Frame) (w : world) :
  fetch_day E self symbol timeframe d acc w
  = (Return (acc ++ option_list (table_of E self symbol timeframe d)),
     world_after_days E self symbol timeframe w [d]).
Proof.
  unfold fetch_day, try_except, try_body, except_clause, bind, http_get,
    table_of, day_outcome_of, outcome_of, read_archive, world_after_days,
    day_line, day_outcome_of, outcome_of, read_archive, lift, raise, print,
    ret.
  simpl.
  destruct (requests_get E _) as [r|e]; simpl;
    [destruct (status_code r =? 200); simpl;
     [destruct (ZipFile E (content r)) as [z|e]; simpl;
      [destruct (namelist E z) as [|name names]; simpl;
       [|destruct (zip_open E z name) as [f|e]; simpl;
         [destruct (read_csv E f) as [df|e]; simpl|]]|]|]|];
    rewrite ?app_nil_r; reflexivity.
Qed.

Lemma tables_of_cons (d : date) (days : list date) :
  tables_of E self symbol timeframe (d :: days)
  = option_list (table_of E self symbol timeframe d)
    ++ tables_of E self symbol timeframe days.
Proof. simpl. destruct (table_of _ _ _ _ d); reflexivity. Qed.

Lemma world_after_days_cons (w : world) (d : date) (days : list date) :
  world_after_days E self symbol timeframe
    (world_after_days E self symbol timeframe w [d]) days
  = world_after_days E self symbol timeframe w (d :: days).
Proof.
  unfold world_after_days. simpl. rewrite !app_nil_r, <- !app_assoc.
  reflexivity.
Qed.

Lemma world_after_no_day (w : world) :
  world_after_days E self symbol timeframe w [] = w.
Proof.
  destruct w. unfold world_after_days. simpl. rewrite !app_nil_r. reflexivity.
Qed.

Lemma while_loop_step (fuel : nat) (end_date d : date) (acc : list Frame) :
  while_loop E (S fuel) self symbol timeframe end_date d acc
  = if date_le d end_date then
      bind (fetch_day E self symbol timeframe d acc) (fun acc' =>
      bind (next_day d) (fun d' =>
      while_loop E fuel self symbol timeframe end_date d' acc'))
    else ret acc.
Proof. reflexivity. Qed.

(** After a day that returned, the loop goes on with the next day. *)
Lemma while_loop_continues (fuel : nat) (end_date d d' : date)
  (acc acc' : list Frame) (w w' : world) :
  fetch_day E self symbol timeframe d acc w = (Return acc', w') ->
  date_le d end_date = true -> add_one_day d = Some d' ->
  while_loop E (S fuel) self symbol timeframe end_date d acc w
  = while_loop E fuel self symbol timeframe end_date d' acc' w'.
Proof.
  intros Hday Hle Hnext.
  rewrite while_loop_step, Hle. unfold bind at 1. rewrite Hday.
  unfold bind, next_day. rewrite Hnext. reflexivity.
Qed.

(** The loop stops at once on a day after [end_date]. *)
Lemma while_loop_done (fuel : nat) (end_date d : date) (acc : list Frame)
  (w : world) :
  date_le d end_date = false ->
  while_loop E fuel self symbol timeframe end_date d acc w = (Return acc, w).
Proof. intros H. destruct fuel; simpl; rewrite H; reflexivity. Qed.

(** The loop over a range that ends before [date.max] returns the tables of
    the successful days, after one request per day. *)
Lemma while_loop_run (end_date : date) (n : nat) :
  forall d acc w,
    valid d -> valid end_date -> end_date <> date_max ->
    Z.to_nat (days_between d end_date + 1) = n ->
    while_loop E n self symbol timeframe end_date d acc w
    = (Return (acc ++ tables_of E self symbol timeframe (days_from n d)),
       world_after_days E self symbol timeframe w (days_from n d)).
Proof.
  unfold days_between.
  induction n as [|n IH]; intros d acc w Hd He Hmax Hn.
  - rewrite while_loop_done.
    + simpl. rewrite app_nil_r, world_after_no_day. reflexivity.
    + rewrite date_le_toordinal by assumption. apply Z.leb_gt. lia.
  - rewrite while_loop_step.
    rewrite date_le_toordinal by assumption.
    replace (toordinal d <=? toordinal end_date) with true
      by (symmetry; apply Z.leb_le; lia).
    unfold bind at 1. rewrite fetch_day_run.
    pose proof (ordinal_not_max end_date He Hmax) as Hlt.
    assert (Hne : d <> date_max) by (apply not_max_ordinal; [assumption|lia]).
    unfold bind at 1, next_day. rewrite add_one_day_some by assumption.
    unfold ret at 1.
    rewrite IH; try assumption.
    + rewrite <- app_assoc, <- tables_of_cons, world_after_days_cons.
      reflexivity.
    + apply tomorrow_valid; assumption.
    + rewrite toordinal_tomorrow by assumption. lia.
Qed.

(** The loop over a range that ends at [date.max] goes through every day
    and then raises, when no day is left to move to. *)
Lemma while_loop_overflow (n : nat) :
  forall d acc w,
    valid d ->
    Z.to_nat (days_between d date_max + 1) = n ->
    while_loop E n self symbol timeframe date_max d acc w
    = (Raise OverflowError,
       world_after_days E self symbol timeframe w (days_from n d)).
Proof.
  unfold days_between.
  induction n as [|n IH]; intros d acc w Hd Hn.
  - pose proof (toordinal_max d Hd). lia.
  - rewrite while_loop_step.
    rewrite date_le_toordinal by (assumption || apply valid_date_max).
    pose proof (toordinal_max d Hd) as Hle.
    replace (toordinal d <=? toordinal date_max) with true
      by (symmetry; apply Z.leb_le; lia).
    unfold bind at 1. rewrite fetch_day_run.
    destruct (Z.eq_dec (toordinal d) (toordinal date_max)) as [Heq|Hneq].
    + apply toordinal_inj in Heq; [|assumption|apply valid_date_max].
      subst d. assert (n = O) by lia. subst n.
      unfold bind, next_day. rewrite add_one_day_max. reflexivity.
    + assert (Hne : d <> date_max) by (intros ->; apply Hneq; reflexivity).
      unfold bind at 1, next_day. rewrite add_one_day_some by assumption.
      unfold ret at 1.
      rewrite IH.
      * rewrite world_after_days_cons. reflexivity.
      * apply tomorrow_valid; assumption.
      * rewrite toordinal_tomorrow by assumption. lia.
Qed.


End RunFacts.

(** ** Tables *)

Section FrameFacts.

Variable cell : Type.
Variable NaN : cell.

Lemma find_label_from_range (i k : nat) : forall s j,
  find_label_from (Pos i) (map Pos (seq s k)) j
  = if (s <=? i)%nat && (i <? s + k)%nat then Some (j + (i - s))%nat else None.
Proof.
  induction k as [|k IH]; intros s j; cbn [seq map find_label_from label_eqb].
  - destruct (Nat.leb_spec s i), (Nat.ltb_spec i (s + 0));
      simpl; try lia; reflexivity.
  - rewrite IH.
    destruct (Nat.eqb_spec s i), (Nat.leb_spec s i), (Nat.leb_spec (S s) i),
      (Nat.ltb_spec i (s + S k)), (Nat.ltb_spec i (S s + k));
      simpl; try lia; try reflexivity; apply f_equal; lia.
Qed.

Lemma find_label_range (i k : nat) :
  find_label (Pos i) (map Pos (seq 0 k))
  = if (i <? k)%nat then Some i else None.
Proof.
  unfold find_label. rewrite find_label_from_range. simpl.
  rewrite Nat.sub_0_r. reflexivity.
Qed.

Lemma existsb_range (i a : nat) : forall s,
  existsb (label_eqb (Pos i)) (map Pos (seq s a))
  = (s <=? i)%nat && (i <? s + a)%nat.
Proof.
  induction a as [|a IH]; intros s; cbn [seq map existsb label_eqb].
  - destruct (Nat.leb_spec s i), (Nat.ltb_spec i (s + 0));
      simpl; try lia; reflexivity.
  - rewrite IH.
    destruct (Nat.eqb_spec i s), (Nat.leb_spec s i), (Nat.leb_spec (S s) i),
      (Nat.ltb_spec i (s + S a)), (Nat.ltb_spec i (S s + a));
      simpl; try lia; reflexivity.
Qed.

Lemma filter_new_range (a b : nat) : forall s,
  filter (fun l => negb (existsb (label_eqb l) (map Pos (seq 0 a))))
         (map Pos (seq s b))
  = map Pos (seq (Nat.max s a) (s + b - Nat.max s a)).
Proof.
  induction b as [|b IH]; intros s; cbn [seq map filter].
  - replace (s + 0 - Nat.max s a)%nat with O by lia. reflexivity.
  - rewrite existsb_range, IH. cbn [Nat.leb andb Nat.add].
    destruct (Nat.ltb_spec s a) as [Hs|Hs]; cbn [negb].
    + replace (Nat.max (S s) a) with (Nat.max s a) by lia.
      do 2 f_equal. lia.
    + replace (Nat.max (S s) a) with (S s) by lia.
      replace (Nat.max s a) with s by lia.
      replace (s + S b - s)%nat with (S b) by lia.
      cbn [seq map]. do 3 f_equal. lia.
Qed.

Lemma union_range (a b : nat) :
  union_labels (map Pos (seq 0 a)) (map Pos (seq 0 b))
  = map Pos (seq 0 (Nat.max a b)).
Proof.
  unfold union_labels. rewrite filter_new_range. simpl.
  rewrite <- map_app.
  replace (Nat.max 0 a) with a by lia.
  replace (seq a (b - a)) with (seq (0 + a) (b - a)) by reflexivity.
  rewrite <- seq_app. f_equal. f_equal. lia.
Qed.

Lemma fold_union_range (frames : list (DataFrame cell)) : forall k,
  Forall csv_frame frames ->
  fold_left union_labels (map columns frames) (map Pos (seq 0 k))
  = map Pos (seq 0 (Nat.max k (max_width frames))).
Proof.
  induction frames as [|f frames IH]; intros k Hall; simpl.
  - rewrite Nat.max_0_r. reflexivity.
  - inversion Hall as [|? ? [Hcols _] Hrest]; subst.
    rewrite Hcols, union_range, IH by assumption.
    change (max_width (f :: frames))
      with (Nat.max (width f) (max_width frames)).
    rewrite Nat.max_assoc. reflexivity.
Qed.

Lemma width_le_max (f : DataFrame cell) (frames : list (DataFrame cell)) :
  In f frames -> (width f <= max_width frames)%nat.
Proof.
  unfold max_width. induction frames as [|g frames IH]; simpl; [tauto|].
  intros [-> | Hin]; [lia|]. specialize (IH Hin). lia.
Qed.

Lemma map_const_seq (m : nat) : forall s,
  map (fun _ => NaN) (seq s m) = repeat NaN m.
Proof.
  induction m as [|m IH]; intros s; cbn [seq map repeat];
    [reflexivity | rewrite IH; reflexivity].
Qed.

Lemma nth_range (row : list cell) : forall s m,
  map (fun i => nth (i - s) row NaN) (seq s m)
  = firstn m row ++ repeat NaN (m - List.length row).
Proof.
  induction row as [|c row IH]; intros s m.
  - rewrite firstn_nil. cbn [List.length app]. rewrite Nat.sub_0_r.
    rewrite <- (map_const_seq m s).
    apply map_ext. intros i. destruct (i - s)%nat; reflexivity.
  - destruct m as [|m]; simpl; [reflexivity|].
    rewrite Nat.sub_diag. f_equal.
    rewrite <- IH with (s := S s).
    apply map_ext_in. intros i Hi. apply in_seq in Hi.
    replace (i - s)%nat with (S (i - S s))%nat by lia. reflexivity.
Qed.

Lemma reindex_fit (k m : nat) (row : list cell) :
  List.length row = k ->
  reindex NaN (map Pos (seq 0 k)) (map Pos (seq 0 m)) row = fit NaN m row.
Proof.
  intros Hlen. unfold reindex, fit. rewrite map_map.
  rewrite <- nth_range with (s := O).
  apply map_ext. intros i. rewrite find_label_range, Nat.sub_0_r.
  destruct (i <? k)%nat eqn:Hi; [reflexivity|].
  apply Nat.ltb_ge in Hi. symmetry. apply nth_overflow. lia.
Qed.

Lemma fit_length (w : nat) (row : list cell) :
  List.length (fit NaN w row) = w.
Proof.
  unfold fit. rewrite length_app, length_firstn, repeat_length. lia.
Qed.

Lemma fit_same (w : nat) (row : list cell) :
  List.length row = w -> fit NaN w row = row.
Proof.
  intros H. unfold fit. rewrite firstn_all2 by lia.
  replace (w - List.length row)%nat with O by lia. apply app_nil_r.
Qed.

Lemma frame_of_csv_is_csv_frame (parsed : nat * list (list cell)) :
  csv_frame (frame_of_csv NaN parsed).
Proof.
  destruct parsed as [w rows]. unfold csv_frame, frame_of_csv, width. simpl.
  rewrite length_map, length_seq. split; [reflexivity|].
  apply Forall_forall. intros row Hin. apply in_map_iff in Hin.
  destruct Hin as (r & <- & _). apply fit_length.
Qed.

(** [pd.concat] on tables read from CSV: the columns are the positions up to
    the largest width, and the rows follow each other, filled to that
    width. *)
Lemma concat_csv_frames (frames : list (DataFrame cell)) :
  frames <> [] -> Forall csv_frame frames ->
  concat NaN frames
  = Ok (mkframe (map Pos (seq 0 (max_width frames)))
                (RangeIndex (List.length (all_rows frames)))
                (map (fit NaN (max_width frames)) (all_rows frames))).
Proof.
  intros Hne Hall. unfold concat. destruct frames as [|f0 fs]; [congruence|].
  set (frames := f0 :: fs) in *.
  change (@nil label) with (map Pos (seq 0 0)).
  rewrite fold_union_range by assumption. simpl Nat.max.
  assert (Hrows :
    List.concat
      (map (fun f => map (reindex NaN (columns f)
                            (map Pos (seq 0 (max_width frames)))) (data f))
           frames)
    = map (fit NaN (max_width frames)) (all_rows frames)).
  { unfold all_rows. generalize (max_width frames) as W. intros W.
    clear Hne. induction Hall as [|f l [Hcols Hrow] _ IH]; simpl;
      [reflexivity|].
    rewrite map_app, IH. f_equal.
    apply map_ext_in. intros row Hin. rewrite Hcols.
    apply reindex_fit. rewrite Forall_forall in Hrow. apply Hrow, Hin. }
  rewrite Hrows, length_map. reflexivity.
Qed.

Lemma zip_rows_first (ts : list cell) : forall rows,
  List.length ts = List.length rows ->
  Forall (fun row => row <> []) rows ->
  map (fun row => nth 0 row NaN) (zip_rows NaN (replace_nth 0) ts rows) = ts.
Proof.
  induction ts as [|t ts IH]; intros [|row rows] Hlen Hall; simpl in *;
    try discriminate; [reflexivity|].
  inversion Hall as [|? ? Hrow Hrest]; subst.
  rewrite IH by (assumption || lia).
  destruct row; [congruence | reflexivity].
Qed.

Lemma zip_rows_rest (rows : list (list cell)) : forall ts,
  map (remove_nth 0) (zip_rows NaN (replace_nth 0) ts rows)
  = map (@tl cell) rows.
Proof.
  induction rows as [|row rows IH]; intros ts; simpl; [reflexivity|].
  destruct ts as [|t ts]; simpl; rewrite IH; destruct row; reflexivity.
Qed.

Lemma nth_0_hd (rows : list (list cell)) :
  map (fun row => nth 0 row NaN) rows = map (hd NaN) rows.
Proof. apply map_ext. intros [|c row]; reflexivity. Qed.

End FrameFacts.

(** ** After the loop *)

Section AfterLoopFacts.

Variable E : Env.
Variable self : BinanceDataDownloader.
Variables symbol timeframe : string.
Variables start_date end_date : date.

Local Abbreviation Frame := (DataFrame (cell E)).
Local Abbreviation output_file :=
  (joinpath E (base_path self)
            (output_name symbol timeframe start_date end_date)).

Lemma to_datetime_length (vs : list (cell E)) : forall ts,
  to_datetime E vs = Ok ts -> List.length ts = List.length vs.
Proof.
  induction vs as [|v vs IH]; intros ts H; simpl in H.
  - inversion H. reflexivity.
  - destruct (to_datetime_ms E v); [|discriminate].
    destruct (to_datetime E vs); [|discriminate].
    inversion H. simpl. f_equal. apply IH. reflexivity.
Qed.

Lemma rows12_not_empty (frames : list Frame) :
  Forall (fun row => row <> []) (rows12 (NaN E) frames).
Proof.
  unfold rows12. apply Forall_forall. intros row Hin.
  apply in_map_iff in Hin. destruct Hin as (r & <- & _).
  intros Hnil. apply (f_equal (@List.length _)) in Hnil.
  rewrite fit_length in Hnil. discriminate.
Qed.

(** What follows the loop, on tables read from CSV. *)
Lemma after_loop_run (frames : list Frame) (w : world) :
  frames <> [] -> Forall csv_frame frames ->
  after_loop E self symbol timeframe start_date end_date frames w
  = if Nat.eqb (max_width frames) 12 then
      match to_datetime E (timestamps (NaN E) frames) with
      | Err x => (Raise x, w)
      | Ok ts =>
          match open_error E output_file with
          | Some x => (Raise x, w)
          | None =>
              (Return (Some (result_table (NaN E) frames ts)),
               mkworld (stdout w ++ [saved_line output_file]) (requests w)
                       (dirs w)
                       ((output_file,
                         to_csv_text (render E) (linesep E)
                                     (result_table (NaN E) frames ts))
                        :: files w))
          end
      end
    else (Raise (length_mismatch (max_width frames) 12), w).
Proof.
  intros Hne Hall. unfold after_loop.
  destruct frames as [|f0 fs] eqn:Hfr; [congruence|]. rewrite <- Hfr in *.
  unfold bind at 1. rewrite concat_csv_frames by assumption.
  cbn [lift ret].
  unfold bind at 1, set_columns. cbn [columns index data].
  rewrite length_map, length_seq.
  change (List.length COLUMNS) with 12%nat.
  rewrite (Nat.eqb_sym 12 (max_width frames)).
  destruct (Nat.eqb_spec (max_width frames) 12) as [HW|HW];
    [|reflexivity].
  rewrite HW. fold (rows12 (NaN E) frames).
  cbn [lift ret].
  unfold bind at 1, getitem. cbn [columns index data].
  change (find_label (Name "timestamp") (map Name COLUMNS)) with (Some O).
  cbn [lift ret].
  rewrite nth_0_hd. fold (timestamps (NaN E) frames).
  unfold bind at 1.
  destruct (to_datetime E (timestamps (NaN E) frames)) as [ts|x] eqn:Hts;
    [|reflexivity].
  cbn [lift ret].
  unfold bind at 1, setitem, set_index. cbn [columns index data].
  change (find_label (Name "timestamp") (map Name COLUMNS)) with (Some O).
  cbn [columns index data].
  change (find_label (Name "timestamp") (map Name COLUMNS)) with (Some O).
  cbn [lift ret].
  rewrite zip_rows_rest, zip_rows_first.
  - change (remove_nth 0 (map Name COLUMNS)) with (map Name DATA_COLUMNS).
    fold (result_table (NaN E) frames ts).
    unfold bind, to_csv, print, ret.
    destruct (open_error E output_file); reflexivity.
  - apply to_datetime_length in Hts. rewrite Hts.
    unfold timestamps. apply length_map.
  - apply rows12_not_empty.
Qed.

End AfterLoopFacts.

(** ** The whole call *)

Lemma date_eq_dec (a b : date) : {a = b} + {a <> b}.
Proof. decide equality; apply Z.eq_dec. Qed.

Lemma zero_padded_4 (n : Z) :
  zero_padded 4 n
  = String (digit (n / 1000)) (String (digit (n / 100))
      (String (digit (n / 10)) (String (digit n) EmptyString))).
Proof.
  cbn [zero_padded append].
  rewrite !Z.div_div by lia. reflexivity.
Qed.

Lemma zero_padded_2 (n : Z) :
  zero_padded 2 n = String (digit (n / 10)) (String (digit n) EmptyString).
Proof. reflexivity. Qed.


Lemma digit_not_zero (n : Z) :
  1 <= n <= 9 -> Ascii.eqb (digit n) "0" = false.
Proof.
  intros H.
  assert (Hn : n = 1 \/ n = 2 \/ n = 3 \/ n = 4 \/ n = 5 \/ n = 6
               \/ n = 7 \/ n = 8 \/ n = 9) by lia.
  repeat (destruct Hn as [Hn | Hn]); subst; reflexivity.
Qed.

(** From year 1000 on the plain decimal number has four digits. *)
Lemma unpadded_from_1000 (n : Z) :
  1000 <= n <= 9999 -> unpadded n = zero_padded 4 n.
Proof.
  intros H. unfold unpadded. rewrite zero_padded_4.
  cbn [strip_zeros]. rewrite digit_not_zero; [reflexivity|].
  Z.div_mod_to_equations. lia.
Qed.

Lemma strftime_YYYY_MM_DD (pads_year : bool) (d : date) :
  pads_year = true \/ 1000 <= year d <= 9999 ->
  strftime pads_year d "%Y-%m-%d" = YYYY_MM_DD d.
Proof.
  intros H. cbn [strftime Ascii.eqb Bool.eqb].
  assert (Hy : (if pads_year then zero_padded 4 (year d)
                else unpadded (year d)) = zero_padded 4 (year d)).
  { destruct pads_year; [reflexivity|].
    destruct H as [H|H]; [discriminate | apply unpadded_from_1000, H]. }
  rewrite Hy, zero_padded_4, !zero_padded_2. reflexivity.
Qed.

(** [get_url] gives the URL of the spec for every date from year 1000 on,
    and for every date where the C library pads the year. *)
Lemma get_url_YYYY_MM_DD (E : Env) (self : BinanceDataDownloader)
  (timeframe symbol : string) (dt : date) :
  strftime_pads_year E = true \/ 1000 <= year dt <= 9999 ->
  get_url E self timeframe symbol dt
  = (kline_url_prefix self ++ "/" ++ symbol ++ "/" ++ timeframe ++ "/"
     ++ symbol ++ "-" ++ timeframe ++ "-" ++ YYYY_MM_DD dt ++ ".zip")%string.
Proof.
  intros H. unfold get_url. rewrite strftime_YYYY_MM_DD by assumption.
  reflexivity.
Qed.


Section CallFacts.

Variable E : Env.
Variable self : BinanceDataDownloader.
Variables symbol timeframe : string.

Local Abbreviation Frame := (DataFrame (cell E)).

Lemma read_csv_csv_frame (f : list Byte.byte) (df : Frame) :
  read_csv E f = Ok df -> csv_frame df.
Proof.
  unfold read_csv. destruct (csv_parse E f) as [parsed|e]; [|discriminate].
  intros H. inversion H. apply frame_of_csv_is_csv_frame.
Qed.

Lemma read_archive_csv_frame (body : list Byte.byte) (df : Frame) :
  read_archive E body = Ok df -> csv_frame df.
Proof.
  unfold read_archive.
  destruct (ZipFile E body) as [z|e]; [|discriminate].
  destruct (first_item (namelist E z)) as [name|e]; [|discriminate].
  destruct (zip_open E z name) as [f|e]; [|discriminate].
  apply read_csv_csv_frame.
Qed.

Lemma table_of_csv_frame (d : date) (df : Frame) :
  table_of E self symbol timeframe d = Some df -> csv_frame df.
Proof.
  unfold table_of, day_outcome_of, outcome_of.
  destruct (requests_get E _) as [r|e]; [|discriminate].
  destruct (status_code r =? 200); [|discriminate].
  destruct (read_archive E (content r)) as [df'|e] eqn:Hr; [|discriminate].
  intros H. inversion H. subst. eapply read_archive_csv_frame, Hr.
Qed.

Lemma tables_of_csv_frames (days : list date) :
  Forall csv_frame (tables_of E self symbol timeframe days).
Proof.
  induction days as [|d days IH]; simpl; [constructor|].
  destruct (table_of E self symbol timeframe d) as [df|] eqn:Hd;
    [|assumption].
  constructor; [|assumption]. eapply table_of_csv_frame, Hd.
Qed.

Lemma tables_of_all_fail (days : list date) :
  (forall d, In d days -> day_fails E self symbol timeframe d) ->
  tables_of E self symbol timeframe days = [].
Proof.
  induction days as [|d days IH]; intros Hall; simpl; [reflexivity|].
  rewrite (Hall d) by (left; reflexivity).
  apply IH. intros d' Hin. apply Hall. right. assumption.
Qed.

(** The call on a range that ends before [date.max]: the loop hands the
    tables of the successful days to what follows it. *)
Lemma download_data_run (start_date end_date : date) (w : world) :
  valid start_date -> valid end_date -> end_date <> date_max ->
  download_data E self symbol timeframe start_date end_date w
  = after_loop E self symbol timeframe start_date end_date
      (tables_of E self symbol timeframe (date_range start_date end_date))
      (world_after_days E self symbol timeframe w
         (date_range start_date end_date)).
Proof.
  intros Hs He Hmax. unfold download_data, bind.
  rewrite while_loop_run by (assumption || reflexivity).
  reflexivity.
Qed.

(** The call on a range that ends at [date.max] raises [OverflowError]
    after the loop went through every day. *)
Lemma download_data_overflow (start_date : date) (w : world) :
  valid start_date ->
  download_data E self symbol timeframe start_date date_max w
  = (Raise OverflowError,
     world_after_days E self symbol timeframe w
       (date_range start_date date_max)).
Proof.
  intros Hs. unfold download_data, bind.
  rewrite while_loop_overflow by (assumption || reflexivity).
  reflexivity.
Qed.


(** The world after the call, as far as requests go. *)
Lemma download_data_requests (start_date end_date : date) (w : world) :
  valid start_date -> valid end_date ->
  requests (snd (download_data E self symbol timeframe start_date end_date w))
  = requests w
    ++ map (get_url E self timeframe symbol) (date_range start_date end_date).
Proof.
  intros Hs He.
  destruct (date_eq_dec end_date date_max) as [->|Hmax].
  - rewrite download_data_overflow by assumption. reflexivity.
  - rewrite download_data_run by assumption.
    generalize (tables_of E self symbol timeframe
                  (date_range start_date end_date)).
    intros frames.
    change (requests w ++ map (get_url E self timeframe symbol)
                              (date_range start_date end_date))
      with (requests (world_after_days E self symbol timeframe w
                        (date_range start_date end_date))).
    generalize (world_after_days E self symbol timeframe w
                  (date_range start_date end_date)).
    intros w0. unfold after_loop.
    destruct frames as [|f fs]; [reflexivity|].
    unfold bind, lift, to_csv, print, ret, raise.
    repeat match goal with
           | |- context [match ?x with _ => _ end] =>
               match x with
               | concat _ _ => destruct x
               | set_columns _ _ => destruct x
               | getitem _ _ _ => destruct x
               | to_datetime _ _ => destruct x
               | set_index _ _ _ => destruct x
               | open_error _ _ => destruct x
               end
           end; reflexivity.
Qed.



End CallFacts.

Section ReturnFacts.

Variable E : Env.
Variable self : BinanceDataDownloader.
Variables symbol timeframe : string.

Local Abbreviation Frame := (DataFrame (cell E)).

(** When the call returns a table, the range ends before [date.max], some
    day succeeded, the widest table has 12 columns, the timestamps convert,
    and the table and the world are the ones [after_loop_run] gives. *)
Lemma download_data_returns_table (start_date end_date : date) (w w' : world)
  (T : Frame) :
  valid start_date -> valid end_date ->
  download_data E self symbol timeframe start_date end_date w
  = (Return (Some T), w') ->
  let days := date_range start_date end_date in
  let frames := tables_of E self symbol timeframe days in
  let path := joinpath E (base_path self)
                (output_name symbol timeframe start_date end_date) in
  frames <> []
  /\ max_width frames = 12%nat
  /\ exists ts,
       to_datetime E (timestamps (NaN E) frames) = Ok ts
       /\ T = result_table (NaN E) frames ts
       /\ files w' = (path, to_csv_text (render E) (linesep E) T) :: files w.
Proof.
  intros Hs He Hrun days frames path.
  destruct (date_eq_dec end_date date_max) as [Hmax|Hmax].
  { subst end_date. rewrite download_data_overflow in Hrun by assumption.
    discriminate. }
  rewrite download_data_run in Hrun by assumption.
  fold days in Hrun. fold frames in Hrun.
  destruct frames as [|f0 fs] eqn:Hfr.
  { simpl in Hrun. discriminate. }
  rewrite <- Hfr in *.
  assert (Hne : frames <> []) by (rewrite Hfr; discriminate).
  rewrite after_loop_run in Hrun
    by (assumption || apply tables_of_csv_frames).
  split; [assumption|].
  destruct (Nat.eqb_spec (max_width frames) 12) as [HW|HW]; [|discriminate].
  split; [assumption|].
  destruct (to_datetime E (timestamps (NaN E) frames)) as [ts|x];
    [|discriminate].
  destruct (open_error E _); [discriminate|].
  inversion Hrun. exists ts. repeat split.
Qed.

Lemma rows12_length (frames : list Frame) :
  List.length (rows12 (NaN E) frames) = list_sum (map len frames).
Proof.
  unfold rows12, all_rows. rewrite length_map, length_concat, map_map.
  reflexivity.
Qed.

Lemma rows12_same (frames : list Frame) :
  Forall csv_frame frames ->
  Forall (fun f => width f = 12%nat) frames ->
  rows12 (NaN E) frames = all_rows frames.
Proof.
  intros Hcsv H12. unfold rows12.
  rewrite <- (map_id (all_rows frames)) at 2.
  apply map_ext_in. intros row Hin. apply fit_same.
  unfold all_rows in Hin. apply in_concat in Hin.
  destruct Hin as (rows & Hrows & Hrow).
  apply in_map_iff in Hrows. destruct Hrows as (f & <- & Hf).
  rewrite Forall_forall in Hcsv, H12.
  destruct (Hcsv f Hf) as [_ Hlen]. rewrite Forall_forall in Hlen.
  rewrite (Hlen row Hrow). apply H12, Hf.
Qed.

End ReturnFacts.


Section MoreCallFacts.

Variable E : Env.
Variable self : BinanceDataDownloader.
Variables symbol timeframe : string.

Local Abbreviation Frame := (DataFrame (cell E)).

(** When every day of a range that ends before [date.max] fails, the call
    returns [None] and no file is written. *)
Lemma download_data_all_fail (start_date end_date : date) (w : world) :
  valid start_date -> valid end_date -> end_date <> date_max ->
  (forall d, In d (date_range start_date end_date) ->
             day_fails E self symbol timeframe d) ->
  download_data E self symbol timeframe start_date end_date w
  = (Return None,
     world_after_days E self symbol timeframe w
       (date_range start_date end_date)).
Proof.
  intros Hs He Hmax Hall.
  rewrite download_data_run by assumption.
  rewrite tables_of_all_fail by assumption. reflexivity.
Qed.

(** When some day succeeds, the tables have 12 columns at most and 12 for
    one of them, the timestamps convert and the file can be written, the
    call returns the table. *)
Lemma download_data_succeeds (start_date end_date : date) (w : world)
  (ts : list (cell E)) :
  valid start_date -> valid end_date -> end_date <> date_max ->
  let days := date_range start_date end_date in
  let frames := tables_of E self symbol timeframe days in
  let path := joinpath E (base_path self)
                (output_name symbol timeframe start_date end_date) in
  frames <> [] -> max_width frames = 12%nat ->
  to_datetime E (timestamps (NaN E) frames) = Ok ts ->
  open_error E path = None ->
  fst (download_data E self symbol timeframe start_date end_date w)
  = Return (Some (result_table (NaN E) frames ts)).
Proof.
  intros Hs He Hmax days frames path Hne HW Hts Hopen.
  rewrite download_data_run by assumption.
  fold days. fold frames.
  rewrite after_loop_run by (assumption || apply tables_of_csv_frames).
  rewrite HW, Hts. fold path. rewrite Hopen. reflexivity.
Qed.

Lemma max_width_all (k : nat) (frames : list Frame) :
  frames <> [] -> Forall (fun f => width f = k) frames ->
  max_width frames = k.
Proof.
  intros Hne Hall. induction Hall as [|f l Hf _ IH]; [congruence|].
  change (max_width (f :: l)) with (Nat.max (width f) (max_width l)).
  destruct l as [|g l].
  - unfold max_width. simpl. lia.
  - rewrite IH by discriminate. lia.
Qed.

Lemma some_width_differs (k : nat) (frames : list Frame) :
  frames <> [] -> max_width frames <> k ->
  exists f, In f frames /\ width f <> k.
Proof.
  intros Hne HW.
  destruct (Exists_dec (fun f : Frame => width f <> k) frames) as [Hex|Hno].
  - intros f. destruct (Nat.eq_dec (width f) k); [right|left]; tauto.
  - apply Exists_exists in Hex. exact Hex.
  - exfalso. apply HW. apply max_width_all; [assumption|].
    apply Forall_forall. intros f Hf.
    destruct (Nat.eq_dec (width f) k) as [|Hne']; [assumption|].
    exfalso. apply Hno. apply Exists_exists. exists f. tauto.
Qed.

End MoreCallFacts.

Lemma read_file_app (a b : list (string * string)) (path : string) :
  read_file (a ++ b) path
  = match read_file a path with
    | Some c => Some c
    | None => read_file b path
    end.
Proof.
  induction a as [|[p c] a IH]; simpl; [reflexivity|].
  destruct (String.eqb p path); [reflexivity | apply IH].
Qed.

Lemma read_file_twice (a b : list (string * string)) (path : string) :
  read_file (a ++ a ++ b) path = read_file (a ++ b) path.
Proof.
  rewrite !read_file_app. destruct (read_file a path); reflexivity.
Qed.



Lemma read_file_latest (fs : list (string * string)) (path text : string) :
  read_file ((path, text) :: fs) path = Some text.
Proof. simpl. rewrite String.eqb_refl. reflexivity. Qed.


(* ================================================================== *)
(** * The claims *)
(* ================================================================== *)

(** C1.  Whenever [download_data] returns a table, at least one day of the
    range succeeded and the rows of the table are the rows of the tables of
    the successful days, day after day in ascending order and in their order
    within each day, nothing sorted and nothing dropped: the index holds
    their converted timestamps, the data their other fields, and the number
    of rows is the sum of the numbers of rows of the days.  (A row of a day
    with fewer than 12 fields is the same row filled with [NaN]; when every
    successful day has 12 columns the rows are the very rows of the days.) *)
Theorem download_data_concatenates_days (E : Env)
  (self : BinanceDataDownloader) (symbol timeframe : string)
  (start_date end_date : date) (w w' : world) (T : DataFrame (cell E)) :
  valid start_date -> valid end_date ->
  download_data E self symbol timeframe start_date end_date w
  = (Return (Some T), w') ->
  let frames :=
    tables_of E self symbol timeframe (date_range start_date end_date) in
  frames <> []
  /\ data T = map (@tl (cell E)) (rows12 (NaN E) frames)
  /\ (exists ts,
        to_datetime E (timestamps (NaN E) frames) = Ok ts
        /\ index T = NamedIndex "timestamp" ts
        /\ List.length ts = len T)
  /\ len T = list_sum (map len frames)
  /\ (Forall (fun f => width f = 12%nat) frames ->
      rows12 (NaN E) frames = all_rows frames
      /\ data T = map (@tl (cell E)) (all_rows frames)).
Proof.
  intros Hs He Hrun frames.
  destruct (download_data_returns_table E self symbol timeframe
              start_date end_date w w' T Hs He Hrun)
    as (Hne & HW & ts & Hts & HT & _).
  fold frames in Hne, HW, Hts, HT.
  assert (Hlen : len T = list_sum (map len frames)).
  { subst T. unfold len, result_table. cbn [data].
    rewrite length_map. apply rows12_length. }
  split; [assumption|].
  split; [subst T; reflexivity|].
  split.
  { exists ts. split; [assumption|]. split; [subst T; reflexivity|].
    apply to_datetime_length in Hts. rewrite Hts.
    unfold timestamps. rewrite length_map.
    subst T. unfold len, result_table. cbn [data].
    rewrite length_map. reflexivity. }
  split; [assumption|].
  intros H12.
  assert (Hsame : rows12 (NaN E) frames = all_rows frames)
    by (apply rows12_same; [apply tables_of_csv_frames | assumption]).
  split; [assumption|]. rewrite <- Hsame. subst T. reflexivity.
Qed.

Lemma download_data_concatenates_days_witness :
  valid (Sample.jan 1) /\ valid (Sample.jan 3)
  /\ download_data Sample.env Sample.downloader "BTCUSDT" "1h"
       (Sample.jan 1) (Sample.jan 3) empty_world
     = (Return (Some Sample.january_table), Sample.january_world)
  /\ len Sample.january_table = 2%nat
  /\ data Sample.january_table
     = map (@tl Z)
         (all_rows
            (tables_of Sample.env Sample.downloader "BTCUSDT" "1h"
               (date_range (Sample.jan 1) (Sample.jan 3)))).
Proof.
  split; [reflexivity|]. split; [reflexivity|].
  split; [vm_compute; reflexivity|]. split; [reflexivity|].
  apply (download_data_concatenates_days Sample.env Sample.downloader
           "BTCUSDT" "1h" (Sample.jan 1) (Sample.jan 3) empty_world
           Sample.january_world Sample.january_table);
    [reflexivity | reflexivity | vm_compute; reflexivity |].
  vm_compute. repeat constructor.
Defined.

(** C2.  The call on the single day [date.max], which the sample remote
    answers with a 404: the day fails, and the call raises [OverflowError]
    where the claim has it return [None].  No file is written. *)
Theorem download_data_all_fail_at_date_max :
  day_fails Sample.env Sample.downloader "BTCUSDT" "1h" date_max
  /\ download_data Sample.env Sample.downloader "BTCUSDT" "1h"
       date_max date_max empty_world
     = (Raise OverflowError,
        mkworld [no_data_line date_max]
                [get_url Sample.env Sample.downloader "1h" "BTCUSDT" date_max]
                [] []).
Proof. split; vm_compute; reflexivity. Qed.

(** C3.  One day of the loop, whatever the remote and the libraries do.
    The [try] statement returns and never raises, and touches no file.  An
    exception of the transport, and an exception of opening the archive, of
    taking its first member, of opening the member or of parsing it, is
    caught: one line with the exception is printed and the list of tables
    stays what it was.  A status other than 200 prints the no-data line and
    leaves the list alone as well.  After such a day the loop goes on with
    the next day, as long as there is one. *)
Theorem day_failure_is_skipped (E : Env) (self : BinanceDataDownloader)
  (symbol timeframe : string) (d : date)
  (all_data : list (DataFrame (cell E))) (w : world) :
  let url := get_url E self timeframe symbol d in
  let skipped line :=
    mkworld (stdout w ++ [line]) (requests w ++ [url]) (dirs w) (files w) in
  let day := fetch_day E self symbol timeframe d all_data w in
  (exists all_data' w', day = (Return all_data', w') /\ files w' = files w)
  /\ (forall e,
        requests_get E url = Err e ->
        day = (Return all_data, skipped (error_line d e)))
  /\ (forall r,
        requests_get E url = Ok r -> status_code r <> 200 ->
        day = (Return all_data, skipped (no_data_line d)))
  /\ (forall r e,
        requests_get E url = Ok r -> status_code r = 200 ->
        ZipFile E (content r) = Err e
        \/ (exists z,
              ZipFile E (content r) = Ok z
              /\ (namelist E z = []
                  /\ e = mkexn "IndexError" "list index out of range"
                  \/ exists name rest,
                       namelist E z = name :: rest
                       /\ (zip_open E z name = Err e
                           \/ exists f, zip_open E z name = Ok f
                                        /\ csv_parse E f = Err e))) ->
        day = (Return all_data, skipped (error_line d e)))
  /\ (forall line fuel end_date d',
        day = (Return all_data, skipped line) ->
        date_le d end_date = true -> add_one_day d = Some d' ->
        while_loop E (S fuel) self symbol timeframe end_date d all_data w
        = while_loop E fuel self symbol timeframe end_date d' all_data
            (skipped line)).
Proof.
  intros url skipped day. subst url skipped day. cbv beta.
  assert (Hrun := fetch_day_run E self symbol timeframe d all_data w).
  unfold table_of, world_after_days, day_line, day_outcome_of, outcome_of,
    read_archive, read_csv in Hrun.
  cbn [flat_map map] in Hrun. rewrite !app_nil_r in Hrun.
  split; [rewrite Hrun; do 2 eexists; split; reflexivity|].
  split.
  { intros e He. rewrite Hrun, He. cbn [option_list].
    rewrite app_nil_r. reflexivity. }
  split.
  { intros r Hr Hs. rewrite Hrun, Hr.
    replace (status_code r =? 200) with false
      by (symmetry; apply Z.eqb_neq; assumption).
    cbn [option_list]. rewrite app_nil_r. reflexivity. }
  split.
  { intros r e Hr Hs Hfail. rewrite Hrun, Hr, Hs. cbn [Z.eqb Pos.eqb].
    destruct Hfail as [Hz | (z & Hz & [[Hn He] | (name & rest & Hn & Ho)])];
      rewrite Hz.
    - cbn [option_list]. rewrite app_nil_r. reflexivity.
    - rewrite Hn, He. cbn [option_list first_item]. rewrite app_nil_r.
      reflexivity.
    - rewrite Hn. cbn [first_item].
      destruct Ho as [Ho | (f & Ho & Hp)]; rewrite Ho; [|rewrite Hp];
        cbn [option_list]; rewrite app_nil_r; reflexivity. }
  intros line fuel end_date d' Hday Hle Hnext.
  apply while_loop_continues; assumption.
Qed.

Lemma day_failure_is_skipped_witness :
  requests_get Sample.env
    (get_url Sample.env Sample.downloader "1h" "BTCUSDT" (Sample.jan 2))
  = Ok (mkresponse 404 [])
  /\ 404 <> 200
  /\ fetch_day Sample.env Sample.downloader "BTCUSDT" "1h" (Sample.jan 2)
       [] empty_world
     = (Return [],
        mkworld [no_data_line (Sample.jan 2)]
                [get_url Sample.env Sample.downloader "1h" "BTCUSDT"
                   (Sample.jan 2)]
                [] []).
Proof.
  split; [vm_compute; reflexivity|]. split; [discriminate|].
  destruct (day_failure_is_skipped Sample.env Sample.downloader
              "BTCUSDT" "1h" (Sample.jan 2) [] empty_world)
    as (_ & _ & Hstatus & _).
  apply (Hstatus (mkresponse 404 []));
    [vm_compute; reflexivity | discriminate].
Defined.



(** C5.  Whenever [download_data] returns a table: its columns are, in
    order, the 11 names [open .. ignore]; its index is named [timestamp] and
    holds the first field of every row converted by [to_datetime], one value
    per row; no column is called [timestamp] any more and every row holds 11
    cells.  The file at the output path holds the text of this table: the
    header line [timestamp,open,...,ignore], then one line per row, the
    index value first.  Which days succeeded plays no part. *)
Theorem returned_table_has_fixed_schema (E : Env)
  (self : BinanceDataDownloader) (symbol timeframe : string)
  (start_date end_date : date) (w w' : world) (T : DataFrame (cell E)) :
  valid start_date -> valid end_date ->
  download_data E self symbol timeframe start_date end_date w
  = (Return (Some T), w') ->
  let frames :=
    tables_of E self symbol timeframe (date_range start_date end_date) in
  let path := joinpath E (base_path self)
                (output_name symbol timeframe start_date end_date) in
  columns T = map Name DATA_COLUMNS
  /\ find_label (Name "timestamp") (columns T) = None
  /\ Forall (fun row => List.length row = 11%nat) (data T)
  /\ exists ts,
       to_datetime E (timestamps (NaN E) frames) = Ok ts
       /\ index T = NamedIndex "timestamp" ts
       /\ List.length ts = len T
       /\ read_file (files w') path
          = Some (to_csv_text (render E) (linesep E) T)
       /\ to_csv_text (render E) (linesep E) T
          = String.concat ""
              ((HEADER ++ linesep E)%string
               :: csv_rows (render E) (linesep E) (map (render E) ts)
                    (data T)).
Proof.
  intros Hs He Hrun frames path.
  destruct (download_data_returns_table E self symbol timeframe
              start_date end_date w w' T Hs He Hrun)
    as (Hne & HW & ts & Hts & HT & Hfiles).
  fold frames in Hne, HW, Hts, HT. fold path in Hfiles.
  split; [subst T; reflexivity|].
  split; [subst T; reflexivity|].
  split.
  { subst T. unfold result_table, rows12. cbn [data].
    apply Forall_forall. intros row Hin.
    apply in_map_iff in Hin. destruct Hin as (r & <- & Hr).
    apply in_map_iff in Hr. destruct Hr as (r0 & <- & _).
    pose proof (fit_length (cell E) (NaN E) 12 r0) as Hlen.
    destruct (fit (NaN E) 12 r0); simpl in *; lia. }
  exists ts. split; [assumption|]. split; [subst T; reflexivity|].
  split.
  { apply to_datetime_length in Hts. rewrite Hts.
    unfold timestamps. rewrite length_map.
    subst T. unfold len, result_table. cbn [data].
    rewrite length_map. reflexivity. }
  split; [rewrite Hfiles; apply read_file_latest|].
  subst T. reflexivity.
Qed.

Lemma returned_table_has_fixed_schema_witness :
  valid (Sample.jan 1) /\ valid (Sample.jan 3)
  /\ download_data Sample.env Sample.downloader "BTCUSDT" "1h"
       (Sample.jan 1) (Sample.jan 3) empty_world
     = (Return (Some Sample.january_table), Sample.january_world)
  /\ columns Sample.january_table = map Name DATA_COLUMNS
  /\ read_file (files Sample.january_world) Sample.january_path
     = Some Sample.january_text.
Proof.
  split; [reflexivity|]. split; [reflexivity|].
  split; [vm_compute; reflexivity|].
  destruct (returned_table_has_fixed_schema Sample.env Sample.downloader
              "BTCUSDT" "1h" (Sample.jan 1) (Sample.jan 3) empty_world
              Sample.january_world Sample.january_table)
    as (Hcols & _ & _ & ts & _ & _ & _ & Hfile & _);
    [reflexivity | reflexivity | vm_compute; reflexivity |].
  split; [exact Hcols|]. reflexivity.
Defined.

(** C6.  [get_url] on 1 January of the year 5, on a machine whose C library
    writes [%Y] as the plain number: the URL carries [5-01-01] where the
    claim has the zero-padded [0005-01-01] (which is what [str] of the same
    date gives, in the name of the output file).  The example of the spec,
    in 2024, comes out as the spec has it. *)
Theorem get_url_unpadded_year :
  get_url Sample.env Sample.downloader "1h" "BTCUSDT" (mkdate 5 1 1)
  = (base_url ++ "/BTCUSDT/1h/BTCUSDT-1h-5-01-01.zip")%string
  /\ YYYY_MM_DD (mkdate 5 1 1) = "0005-01-01"
  /\ isoformat (mkdate 5 1 1) = "0005-01-01"
  /\ valid (mkdate 5 1 1)
  /\ get_url Sample.env Sample.downloader "1h" "BTCUSDT" (mkdate 2024 1 1)
     = (base_url ++ "/BTCUSDT/1h/BTCUSDT-1h-2024-01-01.zip")%string.
Proof. repeat split; vm_compute; reflexivity. Qed.

(** ** Paths *)

Lemma no_sep_app (a b : string) :
  Pathlib.no_sep (a ++ b) = Pathlib.no_sep a && Pathlib.no_sep b.
Proof.
  induction a as [|c a IH]; [reflexivity|].
  cbn [append Pathlib.no_sep]. rewrite IH. apply andb_assoc.
Qed.

Lemma split_no_sep (s : string) :
  Pathlib.no_sep s = true -> Pathlib.split s = [s].
Proof.
  induction s as [|c s IH]; [reflexivity|].
  cbn [Pathlib.no_sep Pathlib.split]. intros H.
  apply andb_true_iff in H. destruct H as [Hc Hs].
  apply negb_true_iff in Hc. rewrite Hc, (IH Hs). reflexivity.
Qed.

Lemma digit_no_sep (n : Z) : Pathlib.is_sep (digit n) = false.
Proof.
  unfold Pathlib.is_sep. apply Ascii.eqb_neq. intros H.
  apply (f_equal nat_of_ascii) in H. unfold digit in H.
  pose proof (Z.mod_pos_bound n 10 ltac:(lia)).
  rewrite nat_ascii_embedding in H by lia.
  change (nat_of_ascii "/") with 47%nat in H. lia.
Qed.

Lemma YYYY_MM_DD_no_sep (d : date) : Pathlib.no_sep (YYYY_MM_DD d) = true.
Proof.
  unfold YYYY_MM_DD. cbn [Pathlib.no_sep].
  rewrite !digit_no_sep. reflexivity.
Qed.

Lemma file_name_no_sep (symbol timeframe : string) (s e : date) :
  Pathlib.no_sep symbol = true -> Pathlib.no_sep timeframe = true ->
  Pathlib.no_sep (file_name symbol timeframe s e) = true.
Proof.
  intros Hs Ht. unfold file_name.
  rewrite !no_sep_app, Hs, Ht, !YYYY_MM_DD_no_sep. reflexivity.
Qed.

(** A file name is neither empty nor ['.']. *)
Lemma file_name_kept (symbol timeframe : string) (s e : date) :
  Pathlib.keeps (file_name symbol timeframe s e) = true.
Proof.
  unfold file_name, Pathlib.keeps.
  destruct symbol as [|c [|c' symbol]]; cbn [append String.eqb].
  - reflexivity.
  - destruct (Ascii.eqb c "."); reflexivity.
  - destruct (Ascii.eqb c "."); reflexivity.
Qed.



Lemma parse_parts_file_name (symbol timeframe : string) (s e : date) :
  Pathlib.no_sep symbol = true -> Pathlib.no_sep timeframe = true ->
  Pathlib.parse_parts (file_name symbol timeframe s e)
  = [file_name symbol timeframe s e].
Proof.
  intros Hs Ht. unfold Pathlib.parse_parts.
  rewrite split_no_sep by (apply file_name_no_sep; assumption).
  cbn [filter]. rewrite file_name_kept. reflexivity.
Qed.









(** C8.  Two calls with the same arguments against the same remote, the
    second in the world the first left: both end the same way (the same
    table, [None], or the same exception), the second writes what the first
    wrote (the same text at the same path, or nothing), and afterwards every
    path holds what it held after the first call. *)
Theorem download_data_idempotent (E : Env) (self : BinanceDataDownloader)
  (symbol timeframe : string) (start_date end_date : date) (w : world) :
  let call := download_data E self symbol timeframe start_date end_date in
  let first := call w in
  let second := call (snd first) in
  fst second = fst first
  /\ (exists written,
        files (snd first) = written ++ files w
        /\ files (snd second) = written ++ files (snd first))
  /\ forall path,
       read_file (files (snd second)) path
       = read_file (files (snd first)) path.
Proof.
  intros call first second. subst second first call.
  pose proof (oblivious_download_data E self symbol timeframe
                start_date end_date) as Hob.
  rewrite (Hob (snd (download_data E self symbol timeframe start_date
                       end_date w))).
  rewrite (Hob w). cbn [fst snd].
  set (d := snd (download_data E self symbol timeframe start_date end_date
                   empty_world)).
  split; [reflexivity|].
  split.
  - exists (files d). split; reflexivity.
  - intros path. unfold extend. cbn [files]. apply read_file_twice.
Qed.

(** C9.  With [start_date] after [end_date] the call returns [None] and
    leaves the world as it was: no request, no line, no file, no
    exception. *)
Theorem download_data_reversed_range (E : Env)
  (self : BinanceDataDownloader) (symbol timeframe : string)
  (start_date end_date : date) (w : world) :
  date_le start_date end_date = false ->
  download_data E self symbol timeframe start_date end_date w
  = (Return None, w).
Proof.
  intros Hgt. unfold download_data, bind.
  rewrite while_loop_done by assumption. reflexivity.
Qed.

Lemma download_data_reversed_range_witness :
  date_le (Sample.jan 3) (Sample.jan 1) = false
  /\ download_data Sample.env Sample.downloader "BTCUSDT" "1h"
       (Sample.jan 3) (Sample.jan 1) empty_world
     = (Return None, empty_world).
Proof.
  split; [reflexivity|].
  apply (download_data_reversed_range Sample.env Sample.downloader
           "BTCUSDT" "1h" (Sample.jan 3) (Sample.jan 1) empty_world).
  reflexivity.
Defined.

(** C10.  When some day succeeds and the concatenation of the tables of
    the successful days does not have 12 columns, the call raises: no table
    is returned and no file is written, no day is skipped for it.  The
    exception is the [ValueError] of the assignment of the 12 names (on a
    range that ends at [date.max] the [OverflowError] of the loop comes
    first), and some successful day has a table that is not 12 wide. *)
Theorem column_count_mismatch_raises (E : Env)
  (self : BinanceDataDownloader) (symbol timeframe : string)
  (start_date end_date : date) (w : world)
  (combined_df : DataFrame (cell E)) :
  valid start_date -> valid end_date ->
  let frames :=
    tables_of E self symbol timeframe (date_range start_date end_date) in
  concat (NaN E) frames = Ok combined_df ->
  width combined_df <> 12%nat ->
  (exists e w',
     download_data E self symbol timeframe start_date end_date w
     = (Raise e, w')
     /\ files w' = files w
     /\ (end_date <> date_max
         -> e = length_mismatch (width combined_df) 12))
  /\ exists df, In df frames /\ width df <> 12%nat.
Proof.
  intros Hs He frames Hcat Hwidth.
  assert (Hne : frames <> []).
  { intros Hnil. rewrite Hnil in Hcat. discriminate. }
  pose proof (tables_of_csv_frames E self symbol timeframe
                (date_range start_date end_date)) as Hcsv.
  fold frames in Hcsv.
  rewrite concat_csv_frames in Hcat by assumption.
  injection Hcat as Hdf. subst combined_df.
  unfold width in Hwidth |- * at 1. cbn [columns] in Hwidth |- *.
  rewrite length_map, length_seq in Hwidth |- *.
  split; [|apply some_width_differs; assumption].
  destruct (date_eq_dec end_date date_max) as [Hmax|Hmax].
  - subst end_date. rewrite download_data_overflow by assumption.
    do 2 eexists. split; [reflexivity|]. split; [reflexivity|].
    intros Hno. congruence.
  - rewrite download_data_run by assumption. fold frames.
    rewrite after_loop_run by assumption.
    destruct (Nat.eqb_spec (max_width frames) 12) as [HW|HW]; [congruence|].
    do 2 eexists. split; [reflexivity|]. split; [reflexivity|].
    reflexivity.
Qed.

Lemma column_count_mismatch_raises_witness :
  exists combined_df,
    valid (Sample.jan 3) /\ valid (Sample.jan 5)
    /\ concat (-1)
         (tables_of Sample.env Sample.downloader "BTCUSDT" "1h"
            (date_range (Sample.jan 3) (Sample.jan 5)))
       = Ok combined_df
    /\ width combined_df = 13%nat
    /\ exists e w',
         download_data Sample.env Sample.downloader "BTCUSDT" "1h"
           (Sample.jan 3) (Sample.jan 5) empty_world
         = (Raise e, w')
         /\ files w' = [].
Proof.
  eexists. split; [reflexivity|]. split; [reflexivity|].
  split; [vm_compute; reflexivity|]. split; [reflexivity|].
  destruct (column_count_mismatch_raises Sample.env Sample.downloader
              "BTCUSDT" "1h" (Sample.jan 3) (Sample.jan 5) empty_world
              _ eq_refl eq_refl eq_refl)
    as [(e & w' & Hrun & Hfiles & _) _].
  - vm_compute. discriminate.
  - exists e, w'. split; [exact Hrun | exact Hfiles].
Defined.


(* ================================================================== *)
(** * Further properties of the code *)
(* ================================================================== *)

(** ** Helpers *)

Lemma count_up_In (n : nat) : forall a x,
  a <= x < a + Z.of_nat n -> In x (count_up a n).
Proof.
  induction n as [|n IH]; intros a x Hx; [lia|]. simpl.
  destruct (Z.eq_dec a x) as [->|Hne]; [left; reflexivity|].
  right. apply IH. lia.
Qed.

Lemma date_range_complete (s e d : date) :
  valid s -> valid e -> valid d ->
  date_le s d = true -> date_le d e = true -> In d (date_range s e).
Proof.
  intros Hs He Hd Hsd Hde.
  rewrite date_le_toordinal in Hsd, Hde by assumption.
  apply Z.leb_le in Hsd, Hde.
  destruct (date_range_ordinals s e Hs He) as [Hord Hval].
  assert (Hin : In (toordinal d) (map toordinal (date_range s e))).
  { rewrite Hord. apply count_up_In. unfold days_between. lia. }
  apply in_map_iff in Hin. destruct Hin as (d' & Heq & Hin).
  rewrite Forall_forall in Hval.
  apply toordinal_inj in Heq; [subst d'; assumption | auto | assumption].
Qed.

Section ExtraFacts.

Variable E : Env.
Variable self : BinanceDataDownloader.
Variables symbol timeframe : string.

Local Abbreviation Frame := (DataFrame (cell E)).

Lemma tables_of_nil (days : list date) :
  tables_of E self symbol timeframe days = [] ->
  forall d, In d days -> day_fails E self symbol timeframe d.
Proof.
  induction days as [|d0 days IH]; simpl; [tauto|].
  unfold day_fails.
  destruct (table_of E self symbol timeframe d0) eqn:Hd0; [discriminate|].
  intros Hnil d [<- | Hin]; [assumption | apply IH; assumption].
Qed.

Lemma lines_and_tables (days : list date) :
  (List.length (flat_map (day_line E self symbol timeframe) days)
   + List.length (tables_of E self symbol timeframe days))%nat
  = List.length days.
Proof.
  induction days as [|d days IH]; [reflexivity|].
  cbn [flat_map tables_of List.length]. rewrite length_app.
  set (lines := flat_map (day_line E self symbol timeframe) days) in *.
  set (tables := tables_of E self symbol timeframe days) in *.
  unfold table_of, day_line.
  destruct (day_outcome_of E self symbol timeframe d); cbn [List.length];
    lia.
Qed.

(** What follows the loop prints nothing, or the line of the saved file
    as its only and last line, and this exactly when it returns a table. *)
Lemma after_loop_stdout (start_date end_date : date) (acc : list Frame)
  (w : world) :
  let run := after_loop E self symbol timeframe start_date end_date acc w in
  let path := joinpath E (base_path self)
                (output_name symbol timeframe start_date end_date) in
  (stdout (snd run) = stdout w /\ forall T, fst run <> Return (Some T))
  \/ (stdout (snd run) = stdout w ++ [saved_line path]
      /\ exists T, fst run = Return (Some T)).
Proof.
  unfold after_loop. destruct acc as [|f fs].
  { left. split; [reflexivity | discriminate]. }
  unfold bind, lift, to_csv, print, ret, raise.
  repeat match goal with
         | |- context [match ?x with _ => _ end] =>
             match x with
             | concat _ _ => destruct x
             | set_columns _ _ => destruct x
             | getitem _ _ _ => destruct x
             | to_datetime _ _ => destruct x
             | set_index _ _ _ => destruct x
             | open_error _ _ => destruct x
             end
         end; cbn [fst snd stdout];
    try (left; split; [reflexivity | discriminate]).
  right. split; [reflexivity | eexists; reflexivity].
Qed.

End ExtraFacts.

(** ** [download_data] *)

(** X1.  When a range ends before [date.max], some day succeeds, the widest
    table of the successful days has 12 columns, every timestamp converts
    and the output file can be opened, the call returns the table of these
    days, after one request per day, the lines of the failed days and the
    line of the saved file, and the file holds the text of the table. *)
Theorem download_data_returns_the_table (E : Env)
  (self : BinanceDataDownloader) (symbol timeframe : string)
  (start_date end_date : date) (w : world) (ts : list (cell E)) :
  valid start_date -> valid end_date -> end_date <> date_max ->
  let days := date_range start_date end_date in
  let frames := tables_of E self symbol timeframe days in
  let path := joinpath E (base_path self)
                (output_name symbol timeframe start_date end_date) in
  let T := result_table (NaN E) frames ts in
  frames <> [] -> max_width frames = 12%nat ->
  to_datetime E (timestamps (NaN E) frames) = Ok ts ->
  open_error E path = None ->
  download_data E self symbol timeframe start_date end_date w
  = (Return (Some T),
     mkworld (stdout w ++ flat_map (day_line E self symbol timeframe) days
              ++ [saved_line path])
             (requests w ++ map (get_url E self timeframe symbol) days)
             (dirs w)
             ((path, to_csv_text (render E) (linesep E) T) :: files w)).
Proof.
  intros Hs He Hmax days frames path T Hne HW Hts Hopen.
  rewrite download_data_run by assumption.
  fold days. fold frames.
  rewrite after_loop_run by (assumption || apply tables_of_csv_frames).
  rewrite HW, Hts. fold path. rewrite Hopen.
  unfold world_after_days. cbn [stdout requests dirs files].
  rewrite <- app_assoc. reflexivity.
Qed.

Lemma download_data_returns_the_table_witness :
  valid (Sample.jan 1) /\ valid (Sample.jan 3) /\ Sample.jan 3 <> date_max
  /\ download_data Sample.env Sample.downloader "BTCUSDT" "1h"
       (Sample.jan 1) (Sample.jan 3) empty_world
     = (Return (Some Sample.january_table), Sample.january_world).
Proof.
  split; [reflexivity|]. split; [reflexivity|]. split; [discriminate|].
  rewrite (download_data_returns_the_table Sample.env Sample.downloader
             "BTCUSDT" "1h" (Sample.jan 1) (Sample.jan 3) empty_world
             [1000000000; 3000000000]);
    try (vm_compute; reflexivity); try reflexivity; discriminate.
Defined.

(** X2.  On valid dates the call returns [None] exactly when the range ends
    before [date.max] and every day of the range failed: [None] never hides
    a day that was fetched. *)
Theorem none_exactly_when_every_day_fails (E : Env)
  (self : BinanceDataDownloader) (symbol timeframe : string)
  (start_date end_date : date) (w : world) :
  valid start_date -> valid end_date ->
  fst (download_data E self symbol timeframe start_date end_date w)
  = Return None
  <-> end_date <> date_max
      /\ forall d, In d (date_range start_date end_date) ->
                   day_fails E self symbol timeframe d.
Proof.
  intros Hs He. split.
  - intros Hnone.
    destruct (date_eq_dec end_date date_max) as [Hmax|Hmax].
    { subst end_date. rewrite download_data_overflow in Hnone by assumption.
      discriminate. }
    split; [assumption|].
    apply tables_of_nil.
    rewrite download_data_run in Hnone by assumption.
    destruct (tables_of E self symbol timeframe
                (date_range start_date end_date)) as [|f fs] eqn:Hfr;
      [reflexivity|].
    exfalso. rewrite <- Hfr in Hnone.
    rewrite after_loop_run in Hnone.
    + destruct (Nat.eqb _ 12); [|discriminate].
      destruct (to_datetime E _); [|discriminate].
      destruct (open_error E _); discriminate.
    + rewrite Hfr. discriminate.
    + apply tables_of_csv_frames.
  - intros [Hmax Hall].
    rewrite download_data_all_fail by assumption. reflexivity.
Qed.

Lemma none_exactly_when_every_day_fails_witness :
  valid (Sample.jan 2) /\ valid (Sample.jan 2)
  /\ fst (download_data Sample.env Sample.downloader "BTCUSDT" "1h"
            (Sample.jan 2) (Sample.jan 2) empty_world)
     = Return None.
Proof.
  split; [reflexivity|]. split; [reflexivity|].
  apply (none_exactly_when_every_day_fails Sample.env Sample.downloader
           "BTCUSDT" "1h" (Sample.jan 2) (Sample.jan 2) empty_world);
    [reflexivity | reflexivity |].
  split; [discriminate|].
  intros d [<- | []]. vm_compute. reflexivity.
Defined.

(** X3.  A timestamp that [to_datetime] refuses aborts the whole call: the
    conversion is outside the [try] of the loop, so its exception reaches
    the caller after every day was requested; no table is returned and no
    file written, and the line of the saved file is not printed. *)
Theorem unconvertible_timestamp_aborts (E : Env)
  (self : BinanceDataDownloader) (symbol timeframe : string)
  (start_date end_date : date) (w : world) (x : exn) :
  valid start_date -> valid end_date -> end_date <> date_max ->
  let days := date_range start_date end_date in
  let frames := tables_of E self symbol timeframe days in
  frames <> [] -> max_width frames = 12%nat ->
  to_datetime E (timestamps (NaN E) frames) = Err x ->
  download_data E self symbol timeframe start_date end_date w
  = (Raise x,
     mkworld (stdout w ++ flat_map (day_line E self symbol timeframe) days)
             (requests w ++ map (get_url E self timeframe symbol) days)
             (dirs w) (files w)).
Proof.
  intros Hs He Hmax days frames Hne HW Hts.
  rewrite download_data_run by assumption.
  fold days. fold frames.
  rewrite after_loop_run by (assumption || apply tables_of_csv_frames).
  rewrite HW, Hts. reflexivity.
Qed.

Lemma unconvertible_timestamp_aborts_witness :
  valid (Sample.jan 1) /\ valid (Sample.jan 3) /\ Sample.jan 3 <> date_max
  /\ to_datetime Machines.strict
       (timestamps (-1)
          (tables_of Machines.strict Sample.downloader "BTCUSDT" "1h"
             (date_range (Sample.jan 1) (Sample.jan 3))))
     = Err (mkexn "OutOfBoundsDatetime" "out of bounds")
  /\ fst (download_data Machines.strict Sample.downloader "BTCUSDT" "1h"
            (Sample.jan 1) (Sample.jan 3) empty_world)
     = Raise (mkexn "OutOfBoundsDatetime" "out of bounds").
Proof.
  split; [reflexivity|]. split; [reflexivity|]. split; [discriminate|].
  split; [vm_compute; reflexivity|].
  rewrite (unconvertible_timestamp_aborts Machines.strict Sample.downloader
             "BTCUSDT" "1h" (Sample.jan 1) (Sample.jan 3) empty_world
             (mkexn "OutOfBoundsDatetime" "out of bounds"));
    try (vm_compute; reflexivity); try reflexivity; discriminate.
Defined.

(** X4.  When the output file cannot be opened for writing, the exception
    of the file system reaches the caller: the table that was built is not
    returned, and the line of the saved file is not printed. *)
Theorem write_error_reaches_the_caller (E : Env)
  (self : BinanceDataDownloader) (symbol timeframe : string)
  (start_date end_date : date) (w : world) (ts : list (cell E))
  (x : exn) :
  valid start_date -> valid end_date -> end_date <> date_max ->
  let days := date_range start_date end_date in
  let frames := tables_of E self symbol timeframe days in
  let path := joinpath E (base_path self)
                (output_name symbol timeframe start_date end_date) in
  frames <> [] -> max_width frames = 12%nat ->
  to_datetime E (timestamps (NaN E) frames) = Ok ts ->
  open_error E path = Some x ->
  download_data E self symbol timeframe start_date end_date w
  = (Raise x,
     mkworld (stdout w ++ flat_map (day_line E self symbol timeframe) days)
             (requests w ++ map (get_url E self timeframe symbol) days)
             (dirs w) (files w)).
Proof.
  intros Hs He Hmax days frames path Hne HW Hts Hopen.
  rewrite download_data_run by assumption.
  fold days. fold frames.
  rewrite after_loop_run by (assumption || apply tables_of_csv_frames).
  rewrite HW, Hts. fold path. rewrite Hopen. reflexivity.
Qed.

Lemma write_error_reaches_the_caller_witness :
  valid (Sample.jan 1) /\ valid (Sample.jan 3) /\ Sample.jan 3 <> date_max
  /\ open_error Machines.read_only Sample.january_path
     = Some Machines.PermissionError
  /\ fst (download_data Machines.read_only Sample.downloader "BTCUSDT" "1h"
            (Sample.jan 1) (Sample.jan 3) empty_world)
     = Raise Machines.PermissionError.
Proof.
  split; [reflexivity|]. split; [reflexivity|]. split; [discriminate|].
  split; [reflexivity|].
  rewrite (write_error_reaches_the_caller Machines.read_only
             Sample.downloader "BTCUSDT" "1h" (Sample.jan 1) (Sample.jan 3)
             empty_world [1000000000; 3000000000] Machines.PermissionError);
    try (vm_compute; reflexivity); try reflexivity; discriminate.
Defined.

(** X5.  What a call prints: one line for every day that failed, in the
    order of the days, and after them the line of the saved file exactly
    when a table is returned.  Every day either yields a table or prints a
    line, never both, so the lines of the days and the tables fetched add up
    to the number of days. *)
Theorem printed_lines_account_for_the_days (E : Env)
  (self : BinanceDataDownloader) (symbol timeframe : string)
  (start_date end_date : date) (w : world) :
  valid start_date -> valid end_date ->
  let days := date_range start_date end_date in
  let lines := flat_map (day_line E self symbol timeframe) days in
  let run := download_data E self symbol timeframe start_date end_date w in
  let path := joinpath E (base_path self)
                (output_name symbol timeframe start_date end_date) in
  ((stdout (snd run) = stdout w ++ lines
    /\ forall T, fst run <> Return (Some T))
   \/ (stdout (snd run) = stdout w ++ lines ++ [saved_line path]
       /\ exists T, fst run = Return (Some T)))
  /\ (List.length lines
      + List.length (tables_of E self symbol timeframe days))%nat
     = List.length days.
Proof.
  intros Hs He days lines run path.
  split; [|apply lines_and_tables].
  subst run.
  destruct (date_eq_dec end_date date_max) as [Hmax|Hmax].
  { subst end_date. rewrite download_data_overflow by assumption.
    left. split; [reflexivity | discriminate]. }
  rewrite download_data_run by assumption.
  destruct (after_loop_stdout E self symbol timeframe start_date end_date
              (tables_of E self symbol timeframe days)
              (world_after_days E self symbol timeframe w days))
    as [[Hout Hno] | [Hout Hyes]].
  - left. split; [exact Hout | exact Hno].
  - right. split; [|exact Hyes].
    fold days. rewrite Hout. unfold world_after_days. cbn [stdout].
    rewrite <- app_assoc. reflexivity.
Qed.

Lemma printed_lines_account_for_the_days_witness :
  valid (Sample.jan 1) /\ valid (Sample.jan 3)
  /\ stdout (snd (download_data Sample.env Sample.downloader "BTCUSDT" "1h"
                    (Sample.jan 1) (Sample.jan 3) empty_world))
     = [no_data_line (Sample.jan 2); saved_line Sample.january_path]
  /\ (List.length
        (flat_map (day_line Sample.env Sample.downloader "BTCUSDT" "1h")
           (date_range (Sample.jan 1) (Sample.jan 3)))
      + List.length
          (tables_of Sample.env Sample.downloader "BTCUSDT" "1h"
             (date_range (Sample.jan 1) (Sample.jan 3))))%nat
     = 3%nat.
Proof.
  split; [reflexivity|]. split; [reflexivity|].
  destruct (printed_lines_account_for_the_days Sample.env Sample.downloader
              "BTCUSDT" "1h" (Sample.jan 1) (Sample.jan 3) empty_world)
    as [[[Hout Hno] | [Hout _]] Hcount]; try reflexivity.
  - exfalso. apply (Hno Sample.january_table). vm_compute. reflexivity.
  - split; [rewrite Hout; vm_compute; reflexivity | exact Hcount].
Defined.

(** X6.  No day of the range is left out: for every date between
    [start_date] and [end_date], both included, the call requests the
    archive of that date, whatever happened on the days before it. *)
Theorem every_day_in_range_is_requested (E : Env)
  (self : BinanceDataDownloader) (symbol timeframe : string)
  (start_date end_date d : date) (w : world) :
  valid start_date -> valid end_date -> valid d ->
  date_le start_date d = true -> date_le d end_date = true ->
  In (get_url E self timeframe symbol d)
     (requests
        (snd (download_data E self symbol timeframe start_date end_date w))).
Proof.
  intros Hs He Hd Hsd Hde.
  rewrite download_data_requests by assumption.
  apply in_or_app. right. apply in_map.
  apply date_range_complete; assumption.
Qed.

Lemma every_day_in_range_is_requested_witness :
  valid (Sample.jan 1) /\ valid (Sample.jan 5) /\ valid (Sample.jan 5)
  /\ date_le (Sample.jan 1) (Sample.jan 5) = true
  /\ date_le (Sample.jan 5) (Sample.jan 5) = true
  /\ In (Sample.klines "2024-01-05")
        (requests
           (snd (download_data Sample.env Sample.downloader "BTCUSDT" "1h"
                   (Sample.jan 1) (Sample.jan 5) empty_world))).
Proof.
  repeat (split; [reflexivity|]).
  apply (every_day_in_range_is_requested Sample.env Sample.downloader
           "BTCUSDT" "1h" (Sample.jan 1) (Sample.jan 5) (Sample.jan 5)
           empty_world); reflexivity.
Defined.

(** X8.  Every call whose range ends at [date.max] raises [OverflowError],
    whatever the remote answers: the loop requests every day of the range,
    then the increment after the last day raises, and the tables that were
    fetched are lost; no file is written. *)
Theorem range_ending_at_date_max_raises (E : Env)
  (self : BinanceDataDownloader) (symbol timeframe : string)
  (start_date : date) (w : world) :
  valid start_date ->
  let days := date_range start_date date_max in
  download_data E self symbol timeframe start_date date_max w
  = (Raise OverflowError,
     mkworld (stdout w ++ flat_map (day_line E self symbol timeframe) days)
             (requests w ++ map (get_url E self timeframe symbol) days)
             (dirs w) (files w))
  /\ (0 < List.length days)%nat.
Proof.
  intros Hs days. split.
  - rewrite download_data_overflow by assumption. reflexivity.
  - subst days. unfold date_range. rewrite days_from_length.
    pose proof (toordinal_max start_date Hs). unfold days_between. lia.
Qed.

Lemma range_ending_at_date_max_raises_witness :
  valid (mkdate 9999 12 30)
  /\ fst (download_data Sample.env Sample.downloader "BTCUSDT" "1h"
            (mkdate 9999 12 30) date_max empty_world)
     = Raise OverflowError.
Proof.
  split; [reflexivity|].
  destruct (range_ending_at_date_max_raises Sample.env Sample.downloader
              "BTCUSDT" "1h" (mkdate 9999 12 30) empty_world)
    as [Hrun _]; [reflexivity|].
  rewrite Hrun. reflexivity.
Defined.

(** X10.  A successful day whose table has fewer than 12 columns is not
    rejected when another day brings the width to 12: whenever a table is
    returned, no successful day is wider than 12, and every row of every
    successful day is in the result, filled with [NaN] up to 12 fields (and
    without its first field, which went to the index). *)
Theorem narrow_days_are_filled (E : Env)
  (self : BinanceDataDownloader) (symbol timeframe : string)
  (start_date end_date : date) (w w' : world) (T : DataFrame (cell E)) :
  valid start_date -> valid end_date ->
  download_data E self symbol timeframe start_date end_date w
  = (Return (Some T), w') ->
  forall df row,
    In df (tables_of E self symbol timeframe
             (date_range start_date end_date)) ->
    In row (data df) ->
    (width df <= 12)%nat
    /\ In (tl (row ++ repeat (NaN E) (12 - width df))) (data T).
Proof.
  intros Hs He Hrun df row Hdf Hrow.
  destruct (download_data_returns_table E self symbol timeframe
              start_date end_date w w' T Hs He Hrun)
    as (_ & HW & ts & _ & HT & _).
  pose proof (width_le_max (cell E) df _ Hdf) as Hle. rewrite HW in Hle.
  split; [assumption|].
  pose proof (tables_of_csv_frames E self symbol timeframe
                (date_range start_date end_date)) as Hcsv.
  rewrite Forall_forall in Hcsv. destruct (Hcsv df Hdf) as [_ Hlen].
  rewrite Forall_forall in Hlen. specialize (Hlen row Hrow).
  subst T. unfold result_table, rows12. cbn [data].
  apply in_map. 
  replace (row ++ repeat (NaN E) (12 - width df))
    with (fit (NaN E) 12 row).
  - apply in_map. unfold all_rows. apply in_concat.
    exists (data df). split; [apply in_map; assumption | assumption].
  - unfold fit. rewrite firstn_all2 by lia. rewrite Hlen. reflexivity.
Qed.

Lemma narrow_days_are_filled_witness :
  exists T w',
    valid (Sample.jan 1) /\ valid (Sample.jan 2)
    /\ download_data Machines.ragged Sample.downloader "BTCUSDT" "1h"
         (Sample.jan 1) (Sample.jan 2) empty_world
       = (Return (Some T), w')
    /\ In [10; 20; 5; 15; 100; 1999; 1500; 42; 50; 750; -1] (data T).
Proof.
  do 2 eexists. split; [reflexivity|]. split; [reflexivity|].
  split; [vm_compute; reflexivity|].
  apply (narrow_days_are_filled Machines.ragged Sample.downloader
           "BTCUSDT" "1h" (Sample.jan 1) (Sample.jan 2) empty_world _ _
           eq_refl eq_refl eq_refl
           (frame_of_csv (-1)
              (11%nat, [[1000; 10; 20; 5; 15; 100; 1999; 1500; 42; 50; 750]]))
           [1000; 10; 20; 5; 15; 100; 1999; 1500; 42; 50; 750]).
  - vm_compute. left. reflexivity.
  - vm_compute. left. reflexivity.
Defined.

(** ** [get_url] and [__init__] *)

Lemma append_cancel (p a b : string) :
  (p ++ a)%string = (p ++ b)%string -> a = b.
Proof.
  induction p as [|c p IH]; simpl; intros H; [assumption|].
  injection H as H. apply IH, H.
Qed.

Lemma digit_inj (a b : Z) : digit a = digit b -> a mod 10 = b mod 10.
Proof.
  unfold digit. intros H. apply (f_equal nat_of_ascii) in H.
  pose proof (Z.mod_pos_bound a 10 ltac:(lia)).
  pose proof (Z.mod_pos_bound b 10 ltac:(lia)).
  rewrite !nat_ascii_embedding in H by lia. lia.
Qed.

(** Two dates with fields in range and the same ten characters are the
    same date. *)
Lemma YYYY_MM_DD_inj (a b : date) :
  valid a -> valid b -> YYYY_MM_DD a = YYYY_MM_DD b -> a = b.
Proof.
  intros Ha Hb H.
  apply valid_fields in Ha. destruct Ha as (Hya & Hma & Hda).
  apply valid_fields in Hb. destruct Hb as (Hyb & Hmb & Hdb).
  pose proof (days_in_month_bounds (year a) (month a) Hma).
  pose proof (days_in_month_bounds (year b) (month b) Hmb).
  unfold YYYY_MM_DD in H.
  injection H as Hy3 Hy2 Hy1 Hy0 Hm1 Hm0 Hd1 Hd0.
  apply digit_inj in Hy3, Hy2, Hy1, Hy0, Hm1, Hm0, Hd1, Hd0.
  assert (year a = year b) by (Z.div_mod_to_equations; lia).
  assert (month a = month b) by (Z.div_mod_to_equations; lia).
  assert (day a = day b) by (Z.div_mod_to_equations; lia).
  destruct a, b; simpl in *; congruence.
Qed.

(** X11.  From the year 1000 on, and for every date where the C library
    pads the year, [get_url] returns the prefix of the instance, the symbol,
    the timeframe and the file name [symbol-timeframe-YYYY-MM-DD.zip], with
    the symbol and the timeframe copied as they are. *)
Theorem get_url_from_year_1000 (E : Env) (self : BinanceDataDownloader)
  (timeframe symbol : string) (dt : date) :
  strftime_pads_year E = true \/ 1000 <= year dt <= 9999 ->
  get_url E self timeframe symbol dt
  = (kline_url_prefix self ++ "/" ++ symbol ++ "/" ++ timeframe ++ "/"
     ++ symbol ++ "-" ++ timeframe ++ "-" ++ YYYY_MM_DD dt ++ ".zip")%string.
Proof.
  intros Hyear. unfold get_url.
  rewrite strftime_YYYY_MM_DD by exact Hyear. reflexivity.
Qed.

Lemma get_url_from_year_1000_witness :
  (strftime_pads_year Sample.env = true \/ 1000 <= 2024 <= 9999)
  /\ get_url Sample.env Sample.downloader "1h" "BTCUSDT" (mkdate 2024 1 1)
     = (base_url ++ "/BTCUSDT/1h/BTCUSDT-1h-2024-01-01.zip")%string.
Proof.
  split; [right; lia|].
  rewrite (get_url_from_year_1000 Sample.env Sample.downloader "1h"
             "BTCUSDT" (mkdate 2024 1 1)); [reflexivity | right; simpl; lia].
Defined.

(** X12.  Two different days never share an archive URL: for a fixed
    symbol and timeframe, [get_url] gives different URLs to different dates
    (from the year 1000 on, or where the C library pads the year). *)
Theorem get_url_tells_days_apart (E : Env) (self : BinanceDataDownloader)
  (timeframe symbol : string) (a b : date) :
  valid a -> valid b ->
  strftime_pads_year E = true
  \/ (1000 <= year a <= 9999 /\ 1000 <= year b <= 9999) ->
  get_url E self timeframe symbol a = get_url E self timeframe symbol b ->
  a = b.
Proof.
  intros Ha Hb Hpad Hurl.
  rewrite !get_url_YYYY_MM_DD in Hurl by tauto.
  do 10 apply append_cancel in Hurl.
  apply YYYY_MM_DD_inj; [assumption | assumption |].
  unfold YYYY_MM_DD in *. cbn [append] in Hurl.
  injection Hurl as H3 H2 H1 H0 M1 M0 D1 D0.
  congruence.
Qed.

Lemma get_url_tells_days_apart_witness :
  valid (Sample.jan 1) /\ valid (Sample.jan 2)
  /\ (strftime_pads_year Sample.env = true
      \/ (1000 <= 2024 <= 9999 /\ 1000 <= 2024 <= 9999))
  /\ get_url Sample.env Sample.downloader "1h" "BTCUSDT" (Sample.jan 1)
     <> get_url Sample.env Sample.downloader "1h" "BTCUSDT" (Sample.jan 2).
Proof.
  split; [reflexivity|]. split; [reflexivity|]. split; [right; lia|].
  intros Hurl.
  assert (H : Sample.jan 1 = Sample.jan 2).
  { apply (get_url_tells_days_apart Sample.env Sample.downloader "1h"
             "BTCUSDT" (Sample.jan 1) (Sample.jan 2));
      [reflexivity | reflexivity | right; simpl; lia | exact Hurl]. }
  discriminate H.
Defined.



(** ** The two scripts *)

Lemma init_run (E : Env) (base_path : string) (w : world) :
  mkdir_error E (Path E base_path) = None ->
  __init__ E base_path w
  = (Return (mkdownloader base_url (Path E base_path)),
     mkworld (stdout w) (requests w) (dirs w ++ [Path E base_path])
             (files w)).
Proof.
  intros He. unfold __init__, bind, mkdir, ret.
  cbn [Downloader.base_path]. rewrite He. reflexivity.
Qed.

Lemma script_days_valid :
  valid (mkdate 2024 1 1) /\ valid (mkdate 2024 1 31)
  /\ mkdate 2024 1 31 <> date_max.
Proof. repeat split; discriminate. Qed.

Section ScriptFacts.

Variable E : Env.
Variable frame_text : DataFrame (cell E) -> string.

Local Abbreviation built := (mkdownloader base_url (Path E "data")).
Local Abbreviation january :=
  (date_range (mkdate 2024 1 1) (mkdate 2024 1 31)).
Local Abbreviation made_dir w :=
  (mkworld (stdout w) (requests w) (dirs w ++ [Path E "data"]) (files w)).

(** Both scripts when no day of January yields a table: the world after
    the call. *)
Lemma script_call_without_data (timeframe : string) (w : world) :
  tables_of E built "BTCUSDT" timeframe january = [] ->
  download_data E built "BTCUSDT" timeframe
    (mkdate 2024 1 1) (mkdate 2024 1 31) (made_dir w)
  = (Return None,
     world_after_days E built "BTCUSDT" timeframe (made_dir w) january).
Proof.
  intros Hnone. destruct script_days_valid as (Hs & He & Hmax).
  apply download_data_all_fail; try assumption.
  apply tables_of_nil, Hnone.
Qed.

End ScriptFacts.

(** X14.  The [__main__] block when January 2024 yields no table (every
    day fails): it ends normally.  The test [df is not None] keeps it from
    using the missing table; it has made the directory and requested the 31
    days, and writes no file. *)
Theorem main_survives_no_data (E : Env) (w : world) :
  let self := mkdownloader base_url (Path E "data") in
  let days := date_range (mkdate 2024 1 1) (mkdate 2024 1 31) in
  mkdir_error E (Path E "data") = None ->
  tables_of E self "BTCUSDT" "1m" days = [] ->
  Scripts.main E w
  = (Return tt,
     mkworld (stdout w ++ flat_map (day_line E self "BTCUSDT" "1m") days)
             (requests w ++ map (get_url E self "1m" "BTCUSDT") days)
             (dirs w ++ [Path E "data"]) (files w))
  /\ List.length days = 31%nat.
Proof.
  intros self days Hdir Hnone. split; [|reflexivity].
  unfold Scripts.main, bind at 1. rewrite init_run by assumption.
  unfold bind.
  rewrite script_call_without_data by assumption. reflexivity.
Qed.

Lemma main_survives_no_data_witness :
  mkdir_error Machines.offline (Path Machines.offline "data") = None
  /\ tables_of Machines.offline (mkdownloader base_url "data") "BTCUSDT"
       "1m" (date_range (mkdate 2024 1 1) (mkdate 2024 1 31)) = []
  /\ fst (Scripts.main Machines.offline empty_world) = Return tt.
Proof.
  split; [reflexivity|]. split; [vm_compute; reflexivity|].
  destruct (main_survives_no_data Machines.offline empty_world)
    as [Hrun _]; [reflexivity | vm_compute; reflexivity |].
  rewrite Hrun. reflexivity.
Defined.

(** X15.  The script [test_data.py] when January 2024 yields no table: it
    raises [AttributeError].  The export [df.to_csv(...)] is not under the
    test [df is not None], so it is tried on [None]; nothing is exported and
    the closing message is not printed. *)
Theorem test_data_crashes_without_data (E : Env)
  (frame_text : DataFrame (cell E) -> string) (w : world) :
  let self := mkdownloader base_url (Path E "data") in
  let days := date_range (mkdate 2024 1 1) (mkdate 2024 1 31) in
  mkdir_error E (Path E "data") = None ->
  tables_of E self "BTCUSDT" "1h" days = [] ->
  Scripts.test_data E frame_text w
  = (Raise Scripts.AttributeError,
     mkworld (stdout w ++ flat_map (day_line E self "BTCUSDT" "1h") days)
             (requests w ++ map (get_url E self "1h" "BTCUSDT") days)
             (dirs w ++ [Path E "data"]) (files w)).
Proof.
  intros self days Hdir Hnone.
  unfold Scripts.test_data, bind at 1. rewrite init_run by assumption.
  unfold bind at 1.
  rewrite script_call_without_data by assumption. reflexivity.
Qed.

Lemma test_data_crashes_without_data_witness :
  mkdir_error Machines.offline (Path Machines.offline "data") = None
  /\ tables_of Machines.offline (mkdownloader base_url "data") "BTCUSDT"
       "1h" (date_range (mkdate 2024 1 1) (mkdate 2024 1 31)) = []
  /\ fst (Scripts.test_data Machines.offline Machines.rows_text empty_world)
     = Raise Scripts.AttributeError.
Proof.
  split; [reflexivity|]. split; [vm_compute; reflexivity|].
  rewrite (test_data_crashes_without_data Machines.offline
             Machines.rows_text empty_world);
    [reflexivity | reflexivity | vm_compute; reflexivity].
Defined.

(** X16.  The [__main__] block when the call returns a table: it ends
    normally and its last line gives the number of candles, which is the
    number of rows of the successful days of January taken together. *)
Theorem main_prints_the_row_count (E : Env) (w w' : world)
  (T : DataFrame (cell E)) :
  let self := mkdownloader base_url (Path E "data") in
  let days := date_range (mkdate 2024 1 1) (mkdate 2024 1 31) in
  mkdir_error E (Path E "data") = None ->
  download_data E self "BTCUSDT" "1m" (mkdate 2024 1 1) (mkdate 2024 1 31)
    (mkworld (stdout w) (requests w) (dirs w ++ [Path E "data"]) (files w))
  = (Return (Some T), w') ->
  Scripts.main E w
  = (Return tt,
     mkworld (stdout w'
              ++ [Scripts.downloaded_line
                    (list_sum (map len (tables_of E self "BTCUSDT" "1m"
                                          days)))])
             (requests w') (dirs w') (files w')).
Proof.
  intros self days Hdir Hrun. subst self days.
  destruct script_days_valid as (Hs & He & _).
  destruct (download_data_returns_table E _ "BTCUSDT" "1m"
              (mkdate 2024 1 1) (mkdate 2024 1 31) _ w' T Hs He Hrun)
    as (_ & _ & ts & _ & HT & _).
  assert (Hlen :
    len T
    = list_sum
        (map len
           (tables_of E (mkdownloader base_url (Path E "data")) "BTCUSDT"
              "1m" (date_range (mkdate 2024 1 1) (mkdate 2024 1 31))))).
  { rewrite HT. unfold len, result_table. cbn [data].
    rewrite length_map. apply rows12_length. }
  unfold Scripts.main, bind at 1. rewrite init_run by assumption.
  unfold bind.
  rewrite Hrun. unfold print. rewrite Hlen. reflexivity.
Qed.

Lemma main_prints_the_row_count_witness :
  exists T w',
    mkdir_error Machines.minutes (Path Machines.minutes "data") = None
    /\ download_data Machines.minutes (mkdownloader base_url "data")
         "BTCUSDT" "1m" (mkdate 2024 1 1) (mkdate 2024 1 31)
         (mkworld [] [] ["data"] [])
       = (Return (Some T), w')
    /\ last (stdout (snd (Scripts.main Machines.minutes empty_world))) ""
       = Scripts.downloaded_line 2.
Proof.
  destruct (download_data Machines.minutes (mkdownloader base_url "data")
              "BTCUSDT" "1m" (mkdate 2024 1 1) (mkdate 2024 1 31)
              (mkworld [] [] ["data"] [])) as [[[T|]|e|] w'] eqn:Hrun;
    [| exfalso; vm_compute in Hrun; discriminate Hrun ..].
  exists T, w'. split; [reflexivity|]. split; [reflexivity|].
  rewrite (main_prints_the_row_count Machines.minutes empty_world w' T
             eq_refl Hrun).
  cbn [snd stdout]. rewrite last_last.
  vm_compute. reflexivity.
Defined.

(** X17.  The script [test_data.py] when the call returns a table and the
    export can be written: it ends normally, and [exported_data.csv] holds
    the 11 data columns only.  The export is made with [index=False] after
    the timestamps became the index, so the exported file has no timestamp:
    its header is [open,...,ignore] and each line holds the 11 cells of a
    row.  The script prints the first five rows and its closing message. *)
Theorem test_data_export_has_no_timestamps (E : Env)
  (frame_text : DataFrame (cell E) -> string) (w w' : world)
  (T : DataFrame (cell E)) :
  let self := mkdownloader base_url (Path E "data") in
  mkdir_error E (Path E "data") = None ->
  download_data E self "BTCUSDT" "1h" (mkdate 2024 1 1) (mkdate 2024 1 31)
    (mkworld (stdout w) (requests w) (dirs w ++ [Path E "data"]) (files w))
  = (Return (Some T), w') ->
  open_error E "exported_data.csv" = None ->
  let text :=
    String.concat ""
      ((Scripts.EXPORT_HEADER ++ linesep E)%string
       :: map (fun row => csv_line (linesep E) (map (render E) row))
              (data T)) in
  Scripts.test_data E frame_text w
  = (Return tt,
     mkworld (stdout w' ++ [frame_text (Scripts.head E T);
                            "Data exported to exported_data.csv"])
             (requests w') (dirs w')
             (("exported_data.csv", text) :: files w'))
  /\ Forall (fun row => List.length row = 11%nat) (data T).
Proof.
  intros self Hdir Hrun Hopen text. subst self.
  destruct script_days_valid as (Hs & He & _).
  destruct (download_data_returns_table E _ "BTCUSDT" "1h"
              (mkdate 2024 1 1) (mkdate 2024 1 31) _ w' T Hs He Hrun)
    as (_ & _ & ts & _ & HT & _).
  split.
  - unfold Scripts.test_data, bind at 1. rewrite init_run by assumption.
    unfold bind at 1.
    rewrite Hrun.
    unfold bind, print, Scripts.to_csv_no_index. cbn [stdout requests dirs
      files]. rewrite Hopen. cbn [stdout requests dirs files].
    rewrite <- app_assoc. subst text.
    unfold Scripts.to_csv_text_no_index. rewrite HT at 2.
    reflexivity.
  - rewrite HT. unfold result_table, rows12. cbn [data].
    apply Forall_forall. intros row Hin.
    apply in_map_iff in Hin. destruct Hin as (r & <- & Hr).
    apply in_map_iff in Hr. destruct Hr as (r0 & <- & _).
    pose proof (fit_length (cell E) (NaN E) 12 r0) as Hlen.
    destruct (fit (NaN E) 12 r0) as [|c rest];
      cbn [tl List.length] in Hlen |- *; lia.
Qed.

Lemma test_data_export_has_no_timestamps_witness :
  exists T w',
    mkdir_error Machines.hours (Path Machines.hours "data") = None
    /\ download_data Machines.hours (mkdownloader base_url "data")
         "BTCUSDT" "1h" (mkdate 2024 1 1) (mkdate 2024 1 31)
         (mkworld [] [] ["data"] [])
       = (Return (Some T), w')
    /\ open_error Machines.hours "exported_data.csv" = None
    /\ read_file
         (files (snd (Scripts.test_data Machines.hours Machines.rows_text
                        empty_world)))
         "exported_data.csv"
       = Some (Scripts.EXPORT_HEADER ++ Sample.newline
               ++ "10,20,5,15,100,1999,1500,42,50,750,0" ++ Sample.newline
               ++ "10,20,5,15,100,1999,1500,42,50,750,0"
               ++ Sample.newline)%string.
Proof.
  destruct (download_data Machines.hours (mkdownloader base_url "data")
              "BTCUSDT" "1h" (mkdate 2024 1 1) (mkdate 2024 1 31)
              (mkworld [] [] ["data"] [])) as [[[T|]|e|] w'] eqn:Hrun;
    [| exfalso; vm_compute in Hrun; discriminate Hrun ..].
  exists T, w'. split; [reflexivity|]. split; [reflexivity|].
  split; [reflexivity|].
  destruct (test_data_export_has_no_timestamps Machines.hours
              Machines.rows_text empty_world w' T eq_refl Hrun eq_refl)
    as [Hscript _].
  rewrite Hscript. cbn [snd files read_file String.eqb].
  vm_compute in Hrun. injection Hrun as HT Hw. subst T.
  vm_compute. reflexivity.
Defined.
